(** * chat-your-data: the question-to-SQL pipeline

    A shallow embedding of [src/workflow.py] (the stage functions, the fork
    router and the LangGraph wiring), of [src/orchestrator.py] (the chart
    renderer and the hand-driven orchestrator), of [src/database.py] and of
    [src/app.py], with the properties the specification states about them
    and further properties of the code.

    Python values are modelled as follows.
    - [str] is a sequence of Unicode code points: [pystr := list N].
    - a [dict] with string keys (the workflow state, a stage's returned
      update, the variables handed to a prompt) is a [gmap string PyVal].
    - [raise]/[try]/[except] is the error monad [res E]: [return x] is
      [Ok x], [raise e] is [Raise e].
    - collaborators outside the repository (the model provider, the
      warehouse, pandas' text rendering, pyplot's figure registry) are
      parameters or explicit state. *)

From stdpp Require Import base gmap strings list pretty sorting.
From Equations Require Import Equations.

Set Default Proof Using "Type".
Open Scope N_scope.
Open Scope nat_scope.

(** ** Python strings *)

Module PyStr.

Definition pystr : Type := list N.

(** An ASCII literal of the source, as code points. *)
Definition py (s : string) : pystr :=
  (λ a, Ascii.N_of_ascii a) <$> String.list_ascii_of_string s.

(** [len(s)] *)
Definition len (s : pystr) : nat := length s.

(** Code points on which [str.isspace] holds; [str.strip()] without an
    argument removes exactly these from both ends. *)
Definition isspace (c : N) : bool :=
  ((9 <=? c) && (c <=? 13) || (28 <=? c) && (c <=? 32)
   || (c =? 133) || (c =? 160) || (c =? 5760)
   || (8192 <=? c) && (c <=? 8202)
   || (c =? 8232) || (c =? 8233) || (c =? 8239) || (c =? 8287)
   || (c =? 12288))%N.

Fixpoint lstrip (s : pystr) : pystr :=
  match s with
  | [] => []
  | c :: s' => if isspace c then lstrip s' else s
  end.

Definition rstrip (s : pystr) : pystr := reverse (lstrip (reverse s)).

(** [s.strip()] *)
Definition strip (s : pystr) : pystr := rstrip (lstrip s).

(** [s.startswith(p)] *)
Fixpoint startswith (p s : pystr) : bool :=
  match p, s with
  | [], _ => true
  | _ :: _, [] => false
  | a :: p', b :: s' => (a =? b)%N && startswith p' s'
  end.

(** [s.replace(old, new)]: left to right, non-overlapping occurrences.
    With an empty [old] Python inserts [new] before every code point and at
    the end. *)
Equations? replace (old new s : pystr) : pystr by wf (length s) lt :=
  replace [] new [] := new;
  replace [] new (c :: s') := new ++ c :: replace [] new s';
  replace (o :: old') new [] := [];
  replace (o :: old') new (c :: s') with startswith (o :: old') (c :: s') := {
    | true => new ++ replace (o :: old') new (drop (length old') s');
    | false => c :: replace (o :: old') new s' }.
Proof.
  all: simpl; try lia.
  rewrite length_drop. lia.
Qed.

(** [needle in hay] *)
Fixpoint py_in (needle hay : pystr) : bool :=
  startswith needle hay ||
  match hay with
  | [] => false
  | _ :: hay' => py_in needle hay'
  end.

(** [sep.join(parts)] *)
Fixpoint join (sep : pystr) (parts : list pystr) : pystr :=
  match parts with
  | [] => []
  | [p] => p
  | p :: rest => p ++ sep ++ join sep rest
  end.

(** [str(n)] for a non-negative integer. *)
Definition str_nat (n : nat) : pystr := py (pretty n).

End PyStr.
Export PyStr.

(** ** Result tables (pandas) *)

Module Pandas.

(** A table cell. [NA] stands for every value on which [isnull] holds
    ([None], [NaN], [NaT]). *)
Inductive cell : Type :=
| NA
| IntCell (z : Z)
| StrCell (s : pystr)
| BoolCell (b : bool).

(** A [DataFrame]: the length of its index and its columns, each a name
    with the values it holds. *)
Record DataFrame : Type := mkDataFrame {
  index_len : nat;
  columns : list (pystr * list cell)
}.

(** Every column holds one value per index entry. *)
Definition well_formed (df : DataFrame) : Prop :=
  Forall (λ col, length col.2 = index_len df) (columns df).

Definition isnull (c : cell) : bool :=
  match c with NA => true | _ => false end.

(** [df.empty]: some axis has length zero. *)
Definition empty (df : DataFrame) : bool :=
  (index_len df =? 0) || (length (columns df) =? 0).

(** [len(df)] *)
Definition df_len (df : DataFrame) : nat := index_len df.

(** [df.isnull().all().all()]: [all()] over each column, then over the
    resulting series; both are true on an empty axis. *)
Definition isnull_all_all (df : DataFrame) : bool :=
  forallb (λ col, forallb isnull col.2) (columns df).

(** [df.head(n)] *)
Definition head (n : nat) (df : DataFrame) : DataFrame :=
  {| index_len := min n (index_len df);
     columns := (λ col, (col.1, take n col.2)) <$> columns df |}.

(** [df.columns] *)
Definition column_names (df : DataFrame) : list pystr := fst <$> columns df.

End Pandas.
Export Pandas.

(** ** Python values, exceptions and [try]/[except] *)

Inductive PyVal : Type :=
| VNone
| VStr (s : pystr)
| VBool (b : bool)
| VList (l : list pystr)
| VDataFrame (df : DataFrame).

(** Exceptions the built-in operations and the collaborators raise.
    [Failure msg] is an exception of the model provider or of the
    warehouse, of which the code only ever reads [str(e) = msg]. *)
Inductive error : Type :=
| KeyError (key : string)
| AttributeError (msg : pystr)
| TypeError (msg : pystr)
| ValueError (msg : pystr)
| Failure (msg : pystr).

(** What can be raised out of a stage, out of chart code or out of a turn:
    a built-in exception, the [Exception({...})] that [write_query] builds
    around a dict, or [SystemExit] (code that calls [sys.exit()]). The last
    one is a [BaseException] but no [Exception]: [except Exception] lets it
    pass. *)
Inductive exception : Type :=
| Builtin (e : error)
| ExceptionDict (payload : gmap string PyVal)
| SystemExit.

(** [isinstance(e, Exception)] *)
Definition is_Exception (e : exception) : bool :=
  match e with
  | Builtin _ | ExceptionDict _ => true
  | SystemExit => false
  end.

Inductive res (E A : Type) : Type :=
| Ok (a : A)
| Raise (e : E).
Arguments Ok {E A} a.
Arguments Raise {E A} e.

#[global] Instance res_ret {E} : MRet (res E) := λ A a, Ok a.
#[global] Instance res_bind {E} : MBind (res E) :=
  λ A B f m, match m with Ok a => f a | Raise e => Raise e end.

(** An uncaught built-in exception leaving a stage. *)
Definition propagate {A} (m : res error A) : res exception A :=
  match m with Ok a => Ok a | Raise e => Raise (Builtin e) end.

(** [str(e)] *)
Definition str_error (e : error) : pystr :=
  match e with
  | KeyError key => py "'" ++ py key ++ py "'"
  | AttributeError msg | TypeError msg | ValueError msg | Failure msg => msg
  end.

(** [d[key]] *)
Definition getitem (d : gmap string PyVal) (key : string) : res error PyVal :=
  match d !! key with
  | Some v => Ok v
  | None => Raise (KeyError key)
  end.

(** [d.get(key, default)]; [d.get(key)] is [get d key VNone]. *)
Definition get (d : gmap string PyVal) (key : string) (dflt : PyVal) : PyVal :=
  default dflt (d !! key).

(** [d.update(u)]: the keys of [u] overwrite, the others stay. *)
Definition update (d u : gmap string PyVal) : gmap string PyVal := u ∪ d.

(** [bool(v)], as the [if] statement evaluates it. *)
Definition truthy (v : PyVal) : res error bool :=
  match v with
  | VNone => Ok false
  | VBool b => Ok b
  | VStr s => Ok (negb (bool_decide (s = [])))
  | VList l => Ok (negb (bool_decide (l = [])))
  | VDataFrame _ =>
      Raise (ValueError
               (py "The truth value of a DataFrame is ambiguous. "
                ++ py "Use a.empty, a.bool(), a.item(), a.any() or a.all()."))
  end.

(** ** The global figure registry (pyplot)

    A figure is an object; its identity is the order in which it was
    created. [Gcf] maps the numbers of the open figures to them. *)

Module Pyplot.

Definition figure : Type := nat.

Record pyplot : Type := mkPyplot {
  Gcf : gmap nat figure;
  created : nat
}.

Definition fresh_pyplot : pyplot := {| Gcf := ∅; created := 0 |}.

(** [plt.get_fignums()]: the numbers of the open figures, sorted. *)
Definition get_fignums (p : pyplot) : list nat :=
  merge_sort (≤) (elements (dom (Gcf p))).

(** [plt.figure(num)]: the open figure of that number, or a new figure
    under it; without a number, a new figure under the next free one. *)
Definition plt_figure (num : option nat) (p : pyplot) : figure * pyplot :=
  let num := default (max_list (get_fignums p) + 1) num in
  match Gcf p !! num with
  | Some fig => (fig, p)
  | None =>
      let fig := created p in
      (fig, {| Gcf := <[num := fig]> (Gcf p); created := S (created p) |})
  end.

(** [plt.close(fig)] *)
Definition plt_close (fig : figure) (p : pyplot) : pyplot :=
  {| Gcf := filter (λ kv, kv.2 ≠ fig) (Gcf p); created := created p |}.

(** [plt.close('all')] *)
Definition plt_close_all (p : pyplot) : pyplot :=
  {| Gcf := ∅; created := created p |}.

(** The figure is open: it is on the global figure stack. *)
Definition is_open (fig : figure) (p : pyplot) : Prop :=
  ∃ num, Gcf p !! num = Some fig.

(** What chart code can append to [figs]: a figure, another hashable
    object (an [Axes], a string, [None]) or an unhashable one (a list such
    as [[fig]], a dict). Objects are told apart by their identity. *)
Inductive item : Type :=
| Fig (fig : figure)
| Hashable (id : nat)
| Unhashable (id : nat).

#[global] Instance item_eq_dec : EqDecision item.
Proof. solve_decision. Defined.

#[global] Instance item_countable : Countable item :=
  inj_countable'
    (λ i, match i with
          | Fig fig => inl fig
          | Hashable id => inr (inl id)
          | Unhashable id => inr (inr id)
          end)
    (λ c, match c with
          | inl fig => Fig fig
          | inr (inl id) => Hashable id
          | inr (inr id) => Unhashable id
          end)
    (λ i, match i with Fig _ | Hashable _ | Unhashable _ => eq_refl end).

(** [hash(i)] returns. *)
Definition hashable (i : item) : bool :=
  match i with
  | Fig _ | Hashable _ => true
  | Unhashable _ => false
  end.

(** [list(set(l))]: one of each object, in an order the code does not
    control. Building the set hashes every item, and raises [TypeError] on
    one that cannot be hashed (its text, which names the type, is only
    printed). *)
Definition list_set (l : list item) : res error (list item) :=
  if forallb hashable l then Ok (elements (list_to_set (C := gset item) l))
  else Raise (TypeError (py "unhashable type")).

(** What chart code can reach: the [figs] list it is handed and the global
    registry. *)
Record exec_globals : Type := mkGlobals {
  figs : list item;
  plt : pyplot
}.

(** The effect of [exec(code, exec_globals)] with [df] bound to the result
    table: what it raises, if anything, and what it leaves behind either
    way. *)
Definition Code : Type := DataFrame → exec_globals → option exception * exec_globals.

(** Statements of chart code, to write concrete programs with. *)
Inductive stmt : Type :=
| NewFigure (append : bool)   (* fig = plt.figure(), then figs.append(fig) if set *)
| Append (i : item)           (* figs.append(i) *)
| CloseAll                    (* plt.close('all') *)
| RaiseStmt (e : error)       (* raise e *)
| Exit.                       (* sys.exit() *)

Fixpoint exec_stmts (code : list stmt) (g : exec_globals)
  : option exception * exec_globals :=
  match code with
  | [] => (None, g)
  | NewFigure append :: code' =>
      let '(fig, p) := plt_figure None (plt g) in
      exec_stmts code'
        {| figs := if append then figs g ++ [Fig fig] else figs g; plt := p |}
  | Append i :: code' => exec_stmts code' {| figs := figs g ++ [i]; plt := plt g |}
  | CloseAll :: code' =>
      exec_stmts code' {| figs := figs g; plt := plt_close_all (plt g) |}
  | RaiseStmt e :: _ => (Some (Builtin e), g)
  | Exit :: _ => (Some SystemExit, g)
  end.

Definition program (code : list stmt) : Code := λ _, exec_stmts code.

End Pyplot.
Export Pyplot.

(** ** Collaborators *)

(** The prompt templates of [system_prompts.py]; their text is not
    modelled. *)
Inductive prompt : Type :=
| write_query_system_prompt
| answer_system_prompt
| explain_system_prompt
| dataviz_system_prompt.

(** [(prompt | llm | StrOutputParser()).invoke(variables)] *)
Definition LLM : Type := prompt → gmap string PyVal → res error pystr.

(** The warehouse handle of [database.py]. *)
Record Database : Type := mkDatabase {
  run_query : PyVal → res error DataFrame;
  get_tables : list pystr;
  get_schemas : pystr
}.

(** What the process environment and the libraries provide. *)
Class Runtime : Type := mkRuntime {
  (** [os.getenv("GOOGLE_API_KEY")] *)
  GOOGLE_API_KEY : option pystr;
  (** [init_chat_model("gemini-2.5-flash", ...)] *)
  init_chat_model : LLM;
  (** the module-level [bigquery_db] that [get_instance()] returns *)
  get_instance : Database;
  (** [str(df)], pandas' abridged rendering *)
  df_str : DataFrame → pystr;
  (** [df.to_string()], pandas' full rendering *)
  to_string : DataFrame → pystr;
  (** [str(l)] for a list of strings *)
  list_str : list pystr → pystr;
  (** what [exec] does with a chart source text *)
  exec_code : pystr → Code
}.

(** ** [workflow.py]: the stage functions *)

Module Workflow.
Section stages.
Context `{Runtime}.

Definition get_default_llm : res error LLM :=
  match GOOGLE_API_KEY with
  | None | Some [] =>
      Raise (ValueError (py "GOOGLE_API_KEY environment variable is required"))
  | Some _ => Ok init_chat_model
  end.

Definition get_default_db : Database := get_instance.

(** [if llm is None: llm = get_default_llm()] *)
Definition llm_or_default (llm : option LLM) : res error LLM :=
  match llm with
  | Some l => Ok l
  | None => get_default_llm
  end.

(** The keys [class GraphState(TypedDict)] declares. *)
Definition GraphState : list string :=
  ["tables"; "schema"; "question"; "query"; "result"; "answer"; "explanation";
   "dataviz_code"; "has_results"].

(** [str(v)] *)
Definition py_str (v : PyVal) : pystr :=
  match v with
  | VNone => py "None"
  | VStr s => s
  | VBool true => py "True"
  | VBool false => py "False"
  | VList l => list_str l
  | VDataFrame df => df_str df
  end.

Definition type_name (v : PyVal) : pystr :=
  match v with
  | VNone => py "NoneType"
  | VStr _ => py "str"
  | VBool _ => py "bool"
  | VList _ => py "list"
  | VDataFrame _ => py "DataFrame"
  end.

(** The [AttributeError] of [v.attr] when [v] has no such attribute. *)
Definition no_attribute (v : PyVal) (attr : string) : error :=
  AttributeError
    (py "'" ++ type_name v ++ py "' object has no attribute '" ++ py attr ++ py "'").

(** [v.<attr>] for an attribute only tables have. *)
Definition as_table (v : PyVal) (attr : string) : res error DataFrame :=
  match v with
  | VDataFrame df => Ok df
  | _ => Raise (no_attribute v attr)
  end.

(** ["\n".join(v)]: a list joins its items, a string its code points, a
    table its column labels. *)
Definition join_lines (v : PyVal) : res error pystr :=
  match v with
  | VList l => Ok (join [10%N] l)
  | VStr s => Ok (join [10%N] ((λ c, [c]) <$> s))
  | VDataFrame df => Ok (join [10%N] (column_names df))
  | VNone | VBool _ => Raise (TypeError (py "can only join an iterable"))
  end.

(** Lines 71-73: the fence stripping of [write_query]. *)
Definition strip_sql_fence (query : pystr) : pystr :=
  let query := strip query in
  if startswith (py "```sql") query
  then strip (replace (py "```") [] (replace (py "```sql") [] query))
  else query.

Definition write_query (state : gmap string PyVal) (llm : option LLM)
  : res exception (gmap string PyVal) :=
  llm ← propagate (llm_or_default llm);
  let chain := llm write_query_system_prompt in
  let body : res error (gmap string PyVal) :=
    question ← getitem state "question";
    tables ← getitem state "tables" ≫= join_lines;
    schema ← getitem state "schema";
    query ← chain {[ "question" := question;
                     "tables" := VStr tables;
                     "schema" := schema ]};
    Ok {[ "query" := VStr (strip_sql_fence query) ]} in
  match body with
  | Ok r => Ok r
  | Raise e =>
      Raise (ExceptionDict
        {[ "query" := VStr (py "-- Error generating query: " ++ str_error e) ]})
  end.

Definition execute_query (state : gmap string PyVal) (db : option Database)
  : res exception (gmap string PyVal) :=
  let db := default get_default_db db in
  let body : res error (gmap string PyVal) :=
    query ← getitem state "query";
    result_df ← run_query db query;
    if negb (empty result_df) && (0 <? df_len result_df)
       && negb (isnull_all_all result_df)
    then Ok {[ "result" := VDataFrame result_df; "has_results" := VBool true ]}
    else Ok {[ "result" := VStr (py "Nenhum resultado encontrado.");
               "has_results" := VBool false ]} in
  match body with
  | Ok r => Ok r
  | Raise e =>
      let error_msg := py "Error executing query: " ++ str_error e in
      Ok {[ "result" := VStr error_msg; "has_results" := VBool false ]}
  end.

(** Lines 110-115 and 140-145: what [generate_answer] and [explain_answer]
    hand to the prompt as [result]. *)
Definition result_for_llm (state : gmap string PyVal) : res error PyVal :=
  result ← getitem state "result";
  let result_str := py_str result in
  if (10000 <? N.of_nat (len result_str))%N then
    df ← as_table result "head";
    let truncated_result := to_string (head 100 df) in
    Ok (VStr (py "Resultado truncado (primeiras 100 linhas de "
              ++ str_nat (df_len df) ++ py " total):" ++ [10%N]
              ++ truncated_result))
  else Ok result.

(** The variables [generate_answer] passes to [chain.invoke]. *)
Definition answer_variables (state : gmap string PyVal)
  : res error (gmap string PyVal) :=
  result_for_llm ← result_for_llm state;
  question ← getitem state "question";
  query ← getitem state "query";
  Ok {[ "question" := question; "query" := query; "result" := result_for_llm ]}.

Definition generate_answer (state : gmap string PyVal) (llm : option LLM)
  : res exception (gmap string PyVal) :=
  llm ← propagate (llm_or_default llm);
  let chain := llm answer_system_prompt in
  let body : res error (gmap string PyVal) :=
    variables ← answer_variables state;
    answer ← chain variables;
    Ok {[ "answer" := VStr (strip answer) ]} in
  match body with
  | Ok r => Ok r
  | Raise e =>
      Ok {[ "answer" := VStr (py "Error generating answer: " ++ str_error e) ]}
  end.

(** The variables [explain_answer] passes to [chain.invoke]. *)
Definition explanation_variables (state : gmap string PyVal)
  : res error (gmap string PyVal) :=
  result_for_llm ← result_for_llm state;
  question ← getitem state "question";
  query ← getitem state "query";
  answer ← getitem state "answer";
  Ok {[ "question" := question; "query" := query;
        "result" := result_for_llm; "answer" := answer ]}.

Definition explain_answer (state : gmap string PyVal) (llm : option LLM)
  : res exception (gmap string PyVal) :=
  llm ← propagate (llm_or_default llm);
  let chain := llm explain_system_prompt in
  let body : res error (gmap string PyVal) :=
    variables ← explanation_variables state;
    explanation ← chain variables;
    Ok {[ "explanation" := VStr (strip explanation) ]} in
  match body with
  | Ok r => Ok r
  | Raise e =>
      Ok {[ "explanation" :=
              VStr (py "Error generating explanation: " ++ str_error e) ]}
  end.

(** Lines 189-195: the fence stripping of [create_visualization], with the
    [strip()] of its [return]. *)
Definition strip_python_fence (visualization_code : pystr) : pystr :=
  let visualization_code := strip visualization_code in
  let visualization_code :=
    if startswith (py "```python") visualization_code
    then strip (replace (py "```") []
                  (replace (py "```python") [] visualization_code))
    else visualization_code in
  strip visualization_code.

Definition create_visualization (state : gmap string PyVal) (llm : option LLM)
  : res exception (gmap string PyVal) :=
  llm ← propagate (llm_or_default llm);
  let chain := llm dataviz_system_prompt in
  let body : res error (gmap string PyVal) :=
    result ← getitem state "result";
    df ← as_table result "empty";
    let '(columns, result_for_viz) :=
      if negb (empty df) then
        let columns := (λ col, py "'" ++ col ++ py "', ") <$> column_names df in
        let sample_data := to_string (head 5 df) in
        (VList columns,
         py "Amostra dos dados (5 primeiras linhas):" ++ [10%N] ++ sample_data)
      else (VStr (py "No columns available"), py_str result) in
    question ← getitem state "question";
    query ← getitem state "query";
    visualization_code ← chain {[ "question" := question; "query" := query;
                                  "result" := VStr result_for_viz;
                                  "columns" := columns ]};
    Ok {[ "dataviz_code" := VStr (strip_python_fence visualization_code) ]} in
  match body with
  | Ok r => Ok r
  | Raise e => Ok {[ "dataviz_code" := VStr (py "# Error: " ++ str_error e) ]}
  end.

(** "A consulta SQL não retornou nenhum resultado." ([227] is U+00E3). *)
Definition no_results_answer : pystr :=
  py "A consulta SQL n" ++ [227%N] ++ py "o retornou nenhum resultado.".

Definition handle_no_results (state : gmap string PyVal)
  : res exception (gmap string PyVal) :=
  Ok {[ "answer" := VStr no_results_answer ]}.

Definition should_continue_workflow (state : gmap string PyVal)
  : res exception string :=
  has_results ← propagate (truthy (get state "has_results" (VBool false)));
  if has_results : bool then Ok "generate_answer" else Ok "handle_no_results".

End stages.
End Workflow.
Export Workflow.

(** ** [workflow.py]: the LangGraph wiring

    [StateGraph] is LangGraph's builder. What is modelled of it: the keys
    of the state schema are the channels of the graph, and only they hold
    values: other keys of the input, or of a node's update, are dropped. A
    node is a function from the state to an update, the update is merged
    into the state key by key, and the run then follows the node's
    conditional edge (the router reads the merged state and its answer is
    looked up in the path map) or else its plain edge, until [END]. A run
    performs at most [recursion_limit] steps. *)

Module Graph.

Definition END : string := "__end__".
Definition recursion_limit : nat := 25.

Definition Node : Type := gmap string PyVal → res exception (gmap string PyVal).
Definition Router : Type := gmap string PyVal → res exception string.

Record StateGraph : Type := mkStateGraph {
  channels : list string;
  nodes : gmap string Node;
  entry_point : option string;
  edges : list (string * string);
  branches : list (string * (Router * gmap string string))
}.

(** [StateGraph(state_schema)] *)
Definition new_graph (state_schema : list string) : StateGraph :=
  {| channels := state_schema; nodes := ∅; entry_point := None; edges := [];
     branches := [] |}.

Definition add_node (name : string) (action : Node) (g : StateGraph) : StateGraph :=
  {| channels := channels g;
     nodes := <[name := action]> (nodes g); entry_point := entry_point g;
     edges := edges g; branches := branches g |}.

Definition set_entry_point (name : string) (g : StateGraph) : StateGraph :=
  {| channels := channels g; nodes := nodes g; entry_point := Some name;
     edges := edges g; branches := branches g |}.

Definition add_edge (start_key end_key : string) (g : StateGraph) : StateGraph :=
  {| channels := channels g; nodes := nodes g; entry_point := entry_point g;
     edges := edges g ++ [(start_key, end_key)]; branches := branches g |}.

Definition add_conditional_edges (source : string) (path : Router)
    (path_map : gmap string string) (g : StateGraph) : StateGraph :=
  {| channels := channels g; nodes := nodes g; entry_point := entry_point g;
     edges := edges g; branches := branches g ++ [(source, (path, path_map))] |}.

(** What the graph takes from a dict, be it the input of a run or the
    update a node returned: the values under its channels. *)
Definition channel_values (g : StateGraph) (d : gmap string PyVal)
  : gmap string PyVal :=
  filter (λ kv, kv.1 ∈ channels g) d.

(** First binding of a key in an association list. *)
Fixpoint assoc {A} (key : string) (l : list (string * A)) : option A :=
  match l with
  | [] => None
  | (k, a) :: l' => if decide (k = key) then Some a else assoc key l'
  end.

(** What a run records: a node ran and returned an update (one item of
    [app.stream]), or a router was consulted and chose a target. *)
Inductive event : Type :=
| Ran (node : string) (output : gmap string PyVal)
| Routed (source target : string).

Inductive outcome : Type :=
| Finished
| Raised (e : exception)
| InvalidGraph (node : string)
| RecursionLimit.

Record run : Type := mkRun {
  events : list event;
  final_state : gmap string PyVal;
  result : outcome
}.

Definition after (evs : list event) (r : run) : run :=
  {| events := evs ++ events r; final_state := final_state r; result := result r |}.

(** Where the run goes once [node] has run and its update is merged. *)
Definition successor (g : StateGraph) (node : string) (state : gmap string PyVal)
  : res exception (option (list event * string)) :=
  match assoc node (branches g) with
  | Some (path, path_map) =>
      key ← path state;
      match path_map !! key with
      | Some target => Ok (Some ([Routed node target], target))
      | None => Ok None
      end
  | None =>
      match assoc node (edges g) with
      | Some target => Ok (Some ([], target))
      | None => Ok None
      end
  end.

Fixpoint run_from (g : StateGraph) (fuel : nat) (node : string)
    (state : gmap string PyVal) : run :=
  if decide (node = END) then mkRun [] state Finished else
  match fuel with
  | 0 => mkRun [] state RecursionLimit
  | S fuel' =>
      match nodes g !! node with
      | None => mkRun [] state (InvalidGraph node)
      | Some action =>
          match action state with
          | Raise e => mkRun [] state (Raised e)
          | Ok output =>
              let state' := update state (channel_values g output) in
              match successor g node state' with
              | Raise e => mkRun [Ran node output] state' (Raised e)
              | Ok None => mkRun [Ran node output] state' (InvalidGraph node)
              | Ok (Some (routed, target)) =>
                  after (Ran node output :: routed) (run_from g fuel' target state')
              end
          end
      end
  end.

(** [app.invoke(state)] / exhausting [app.stream(state)] *)
Definition invoke (g : StateGraph) (state : gmap string PyVal) : run :=
  let state := channel_values g state in
  match entry_point g with
  | Some node => run_from g recursion_limit node state
  | None => mkRun [] state (InvalidGraph "__start__")
  end.

(** The names of the nodes that ran, in order. *)
Definition nodes_run (r : run) : list string :=
  omap (λ ev, match ev with Ran node _ => Some node | Routed _ _ => None end)
       (events r).

(** The routing decisions taken, in order. *)
Definition routings (r : run) : list (string * string) :=
  omap (λ ev, match ev with Routed s t => Some (s, t) | Ran _ _ => None end)
       (events r).

(** The keys each node wrote, in order. *)
Definition keys_written (r : run) : list string :=
  events r ≫= λ ev, match ev with
                     | Ran _ output => elements (dom output)
                     | Routed _ _ => []
                     end.

Section sql_workflow.
Context `{Runtime}.

Definition create_sql_workflow : StateGraph :=
  let workflow := new_graph GraphState in
  (* nodes *)
  let workflow := add_node "write_query" (λ state, write_query state None) workflow in
  let workflow := add_node "execute_query" (λ state, execute_query state None) workflow in
  let workflow := add_node "generate_answer" (λ state, generate_answer state None) workflow in
  let workflow := add_node "explain_answer" (λ state, explain_answer state None) workflow in
  let workflow :=
    add_node "create_visualization" (λ state, create_visualization state None) workflow in
  let workflow := add_node "handle_no_results" handle_no_results workflow in
  (* flow *)
  let workflow := set_entry_point "write_query" workflow in
  let workflow := add_edge "write_query" "execute_query" workflow in
  (* route based if query returned results *)
  let workflow :=
    add_conditional_edges "execute_query" should_continue_workflow
      {[ "generate_answer" := "generate_answer";
         "handle_no_results" := "handle_no_results" ]} workflow in
  (* if results exist *)
  let workflow := add_edge "generate_answer" "explain_answer" workflow in
  let workflow := add_edge "explain_answer" "create_visualization" workflow in
  let workflow := add_edge "create_visualization" END workflow in
  (* if no results *)
  let workflow := add_edge "handle_no_results" END workflow in
  workflow.

End sql_workflow.
End Graph.
Export Graph.

(** ** [orchestrator.py] *)

Module Orchestrator.

(** [[plt.figure(fignum) for fignum in nums]], left to right. *)
Fixpoint figures_numbered (nums : list nat) (p : pyplot) : list figure * pyplot :=
  match nums with
  | [] => ([], p)
  | fignum :: nums' =>
      let '(fig, p) := plt_figure (Some fignum) p in
      let '(figs, p) := figures_numbered nums' p in
      (fig :: figs, p)
  end.

(** [create_plot_figures(code, result_df)], with the registry it runs
    against and leaves behind. Whatever [Exception] the chart code or
    [list(set(...))] raises is caught and answered with [[]], with nothing
    closed; what is no [Exception] leaves the function. *)
Definition create_plot_figures (code : Code) (result_df : DataFrame) (p : pyplot)
  : res exception (list item) * pyplot :=
  let figs0 : list item := [] in
  let initial_figures_count := length (get_fignums p) in
  match code result_df {| figs := figs0; plt := p |} with
  | (None, g) =>
      let '(current_figures, p) :=
        figures_numbered
          (filter (λ fignum, initial_figures_count ≤ fignum) (get_fignums (plt g)))
          (plt g) in
      match list_set (figs g ++ (Fig <$> current_figures)) with
      | Ok all_figs =>
          let p := foldl (λ p fig, plt_close fig p) p current_figures in
          (Ok all_figs, p)
      | Raise e => (Ok [], p)
      end
  | (Some e, g) => if is_Exception e then (Ok [], plt g) else (Raise e, plt g)
  end.

(** [cl.Pyplot(name=..., figure=fig, display="inline")]: the element
    checks that it is handed a figure. *)
Definition Pyplot (fig : item) : res error figure :=
  match fig with
  | Fig fig => Ok fig
  | Hashable _ | Unhashable _ =>
      Raise (TypeError (py "figure must be a matplotlib.figure.Figure"))
  end.

(** Lines 175-181: the elements of the chart message, one per figure. *)
Fixpoint pyplot_elements (figs : list item) : res error (list figure) :=
  match figs with
  | [] => Ok []
  | fig :: figs' =>
      element ← Pyplot fig;
      elements ← pyplot_elements figs';
      Ok (element :: elements)
  end.

Record WorkflowOrchestrator : Type := mkOrchestrator {
  self_llm : LLM;
  self_db : Database;
  self_state : gmap string PyVal
}.

(** What the chat surface receives. The wording of the progress notices is
    not modelled, the values they embed are. *)
Inductive notice : Type :=
| GeneratingQuery
| QueryGenerated (query_result : PyVal)
| ExecutingQuery
| QueryExecuted (records : nat)
| QueryReturnedNothing
| InterpretingResults
| ExplainingQuery
| Explained (explanation_result : PyVal)
| GeneratingVisualization
| VisualizationGenerated (dataviz_code : PyVal).

Inductive message : Type :=
| ResultsMessage (display_df : DataFrame) (first_100_only : bool)
| TextMessage (content : PyVal)
| FiguresMessage (elements : list figure)
| NoFigureMessage
| VisualizationErrorMessage (viz_error : exception)
| EmptyCodeMessage.

(** One entry of a turn's history. [StateUpdate] records a
    [self.state.update(result)] with the stage whose result it is. *)
Inductive entry : Type :=
| StateUpdate (stage : string) (output : gmap string PyVal)
| StepUpdate (n : notice)
| StepRemove
| Send (m : message).

(** The process while a turn runs: the orchestrator object, the figure
    registry and the history so far. *)
Record session : Type := mkSession {
  self : WorkflowOrchestrator;
  figures : pyplot;
  history : list entry
}.

(** A method body: it may raise, and what it did before stays done. *)
Definition M (A : Type) : Type := session → res exception A * session.

#[global] Instance M_ret : MRet M := λ A a s, (Ok a, s).
#[global] Instance M_bind : MBind M :=
  λ A B f m s, match m s with
               | (Ok a, s') => f a s'
               | (Raise e, s') => (Raise e, s')
               end.

(** [try: body except Exception as e: handler(e)] *)
Definition try_except {A} (body : M A) (handler : exception → M A) : M A :=
  λ s, match body s with
       | (Ok a, s') => (Ok a, s')
       | (Raise e, s') => if is_Exception e then handler e s' else (Raise e, s')
       end.

Definition lift {A} (r : res exception A) : M A := λ s, (r, s).
Definition record (e : entry) : M unit :=
  λ s, (Ok (), {| self := self s; figures := figures s; history := history s ++ [e] |}).
Definition read_state : M (gmap string PyVal) := λ s, (Ok (self_state (self s)), s).
Definition write_state (state : gmap string PyVal) : M unit :=
  λ s, (Ok (), {| self := {| self_llm := self_llm (self s); self_db := self_db (self s);
                             self_state := state |};
                  figures := figures s; history := history s |}).

(** [len(v)] *)
Definition py_len (v : PyVal) : res error nat :=
  match v with
  | VStr s => Ok (len s)
  | VList l => Ok (length l)
  | VDataFrame df => Ok (df_len df)
  | VNone | VBool _ =>
      Raise (TypeError (py "object of type has no len()"))
  end.

Section orchestrator.
Context `{Runtime}.

(** [WorkflowOrchestrator(llm, db)] *)
Definition create_orchestrator (llm : option LLM) (db : option Database)
  : res exception WorkflowOrchestrator :=
  llm ← propagate (llm_or_default llm);
  Ok {| self_llm := llm; self_db := default get_default_db db; self_state := ∅ |}.

Definition initialize_state (question : pystr) : M (gmap string PyVal) :=
  s ← (λ s, (Ok s, s));
  let db := self_db (self s) in
  let state : gmap string PyVal :=
    {[ "tables" := VList (get_tables db);
       "schema" := VStr (get_schemas db);
       "question" := VStr question;
       "query" := VStr [];
       "result" := VStr [];
       "answer" := VStr [];
       "explanation" := VStr [];
       "dataviz_code" := VStr [];
       "has_results" := VBool false ]} in
  write_state state;;
  mret state.

(** The common shape of the six [step_*] methods: call the stage on
    [self.state], [self.state.update(result)], return [result[key]]. *)
Definition step (stage : string)
    (call : WorkflowOrchestrator → res exception (gmap string PyVal))
    (key : string) : M PyVal :=
  s ← (λ s, (Ok s, s));
  result ← lift (call (self s));
  write_state (update (self_state (self s)) result);;
  record (StateUpdate stage result);;
  lift (propagate (getitem result key)).

Definition step_write_query : M PyVal :=
  step "write_query" (λ self, write_query (self_state self) (Some (self_llm self))) "query".

Definition step_execute_query : M PyVal :=
  step "execute_query" (λ self, execute_query (self_state self) (Some (self_db self))) "result".

Definition step_generate_answer : M PyVal :=
  step "generate_answer" (λ self, generate_answer (self_state self) (Some (self_llm self))) "answer".

Definition step_explain_answer : M PyVal :=
  step "explain_answer" (λ self, explain_answer (self_state self) (Some (self_llm self)))
       "explanation".

Definition step_create_visualization : M PyVal :=
  step "create_visualization"
       (λ self, create_visualization (self_state self) (Some (self_llm self))) "dataviz_code".

Definition step_handle_no_results : M PyVal :=
  step "handle_no_results" (λ self, handle_no_results (self_state self)) "answer".

(** [self.state.get("has_results", False)] as a condition. *)
Definition has_results : M bool :=
  state ← read_state;
  lift (propagate (truthy (get state "has_results" (VBool false)))).

(** Lines 170-195: render the chart, or report that there is nothing to
    render. *)
Definition render (result_df dataviz_code : PyVal) : M unit :=
  match result_df with
  | VDataFrame df =>
      match dataviz_code with
      | VStr source =>
          if bool_decide (strip source = []) then record (Send EmptyCodeMessage)
          else
            try_except
              (figs ← (λ s, let '(figs, p) :=
                              create_plot_figures (exec_code source) df (figures s) in
                            (figs, {| self := self s; figures := p;
                                      history := history s |}));
               if bool_decide (figs = []) then record (Send NoFigureMessage)
               else
                 elements ← lift (propagate (pyplot_elements figs));
                 record (Send (FiguresMessage elements)))
              (λ viz_error, record (Send (VisualizationErrorMessage viz_error)))
      | v => lift (Raise (Builtin (no_attribute v "strip")))
      end
  | _ => record (Send EmptyCodeMessage)
  end.

Definition run_chainlit_workflow (question : pystr) : M unit :=
  initialize_state question;;
  (* step 1: query generation *)
  record (StepUpdate GeneratingQuery);;
  query_result ← step_write_query;
  record (StepUpdate (QueryGenerated query_result));;
  (* step 2: execute query *)
  record (StepUpdate ExecutingQuery);;
  execute_result ← step_execute_query;
  found ← has_results;
  (if found : bool then
     records ← lift (propagate (py_len execute_result));
     record (StepUpdate (QueryExecuted records))
   else record (StepUpdate QueryReturnedNothing));;
  found ← has_results;
  if found : bool then
    (* send results *)
    state ← read_state;
    let result_df := get state "result" VNone in
    df ← lift (propagate (as_table result_df "empty"));
    (if negb (empty df)
     then record (Send (ResultsMessage (head 100 df) (bool_decide (100 < df_len df))))
     else mret ());;
    (* step 3: interpret results *)
    record (StepUpdate InterpretingResults);;
    answer_result ← step_generate_answer;
    record StepRemove;;
    record (Send (TextMessage answer_result));;
    (* step 4: explain query *)
    record (StepUpdate ExplainingQuery);;
    explanation_result ← step_explain_answer;
    record (StepUpdate (Explained explanation_result));;
    (* step 5: create visualization *)
    record (StepUpdate GeneratingVisualization);;
    dataviz_code ← step_create_visualization;
    record (StepUpdate (VisualizationGenerated dataviz_code));;
    render result_df dataviz_code
  else
    no_results_result ← step_handle_no_results;
    record (Send (TextMessage no_results_result)).

End orchestrator.

(** The stages whose results were merged into the state, in order. *)
Definition stages_run (h : list entry) : list string :=
  omap (λ e, match e with StateUpdate stage _ => Some stage | _ => None end) h.

(** The keys those results wrote, in order. *)
Definition fields_written (h : list entry) : list string :=
  h ≫= λ e, match e with
             | StateUpdate _ output => elements (dom output)
             | _ => []
             end.

(** The messages sent to the chat, in order. *)
Definition messages_sent (h : list entry) : list message :=
  omap (λ e, match e with Send m => Some m | _ => None end) h.

(** The history of the answer path, after [execute_query] found the table
    [df], up to the chart rendering. *)
Definition answer_stages (df : DataFrame) (a x c : pystr) : list entry :=
  [ StepUpdate (QueryExecuted (df_len df));
    Send (ResultsMessage (head 100 df) (bool_decide (100 < df_len df)));
    StepUpdate InterpretingResults;
    StateUpdate "generate_answer" {[ "answer" := VStr a ]};
    StepRemove;
    Send (TextMessage (VStr a));
    StepUpdate ExplainingQuery;
    StateUpdate "explain_answer" {[ "explanation" := VStr x ]};
    StepUpdate (Explained (VStr x));
    StepUpdate GeneratingVisualization;
    StateUpdate "create_visualization" {[ "dataviz_code" := VStr c ]};
    StepUpdate (VisualizationGenerated (VStr c)) ].

(** The whole history of the answer path; [m] is the message the chart
    rendering ends with, if it ends with one. *)
Definition answer_path (df : DataFrame) (a x c : pystr) (m : option message)
  : list entry :=
  answer_stages df a x c ++ match m with Some m => [Send m] | None => [] end.

(** The history of the no-results path. *)
Definition no_results_path : list entry :=
  [ StepUpdate QueryReturnedNothing;
    StateUpdate "handle_no_results" {[ "answer" := VStr no_results_answer ]};
    Send (TextMessage (VStr no_results_answer)) ].

End Orchestrator.
Export Orchestrator.

(** ** Concrete collaborators and inputs *)

Module Examples.

(** The table of [test_execute_query_success]: one column, one row. *)
Definition count_table : DataFrame :=
  {| index_len := 1; columns := [(py "count", [IntCell 10])] |}.

(** [pd.DataFrame()] of [test_execute_query_empty]. *)
Definition empty_table : DataFrame := {| index_len := 0; columns := [] |}.

(** A table with rows and a column, every value null. *)
Definition null_table : DataFrame :=
  {| index_len := 2; columns := [(py "uf", [NA; NA])] |}.


(** A warehouse that answers every query with the given table. *)
Definition db_returning (df : DataFrame) : Database :=
  {| run_query := λ _, Ok df; get_tables := [py "creditRisk.train"];
     get_schemas := py "Schema test" |}.

(** The warehouse of [test_execute_query_error]. *)
Definition db_raising : Database :=
  {| run_query := λ _, Raise (Failure (py "DB Error"));
     get_tables := [py "creditRisk.train"]; get_schemas := py "Schema test" |}.

(** A model that wraps what it writes in fences. *)
Definition fencing_llm : LLM := λ p _,
  match p with
  | write_query_system_prompt =>
      Ok (py "```sql" ++ [10%N] ++ py "SELECT COUNT(*) AS count FROM creditRisk.train"
          ++ [10%N] ++ py "```")
  | answer_system_prompt => Ok (py " Dez registros. ")
  | explain_system_prompt => Ok (py "Contagem simples.")
  | dataviz_system_prompt =>
      Ok (py "```python" ++ [10%N] ++ py "fig = plt.figure()" ++ [10%N]
          ++ py "figs.append(fig)" ++ [10%N] ++ py "```")
  end.

(** A model whose every call fails. *)
Definition failing_llm : LLM := λ _ _, Raise (Failure (py "quota exceeded")).

(** A plain rendering of a table: each column's label and values, one per
    line. It stands in for pandas' renderings, whose layout is not
    modelled. *)
Definition cell_text (c : cell) : pystr :=
  match c with
  | NA => py "NaN"
  | IntCell z => py (pretty z)
  | StrCell s => s
  | BoolCell b => py (if b then "True" else "False")
  end.

Definition table_text (df : DataFrame) : pystr :=
  join [10%N] (columns df ≫= λ col, col.1 :: (cell_text <$> col.2)).

(** [str(l)] for a list of strings without quotes in them. *)
Definition list_text (l : list pystr) : pystr :=
  py "[" ++ join (py ", ") ((λ s, py "'" ++ s ++ py "'") <$> l) ++ py "]".

(** A process with the API key set, in which every chart source the model
    writes draws one figure and appends it. *)
Definition runtime (llm : LLM) (db : Database) : Runtime :=
  {| GOOGLE_API_KEY := Some (py "test_key");
     init_chat_model := llm;
     get_instance := db;
     df_str := table_text;
     to_string := table_text;
     list_str := list_text;
     exec_code := λ _, program [NewFigure true] |}.

(** The state of [tests/test_workflow.py]. *)
Definition test_state : gmap string PyVal :=
  {[ "tables" := VList [py "creditRisk.train"];
     "schema" := VStr (py "Schema test");
     "question" := VStr (py "Test question");
     "query" := VStr (py "SELECT * FROM test");
     "result" := VDataFrame count_table;
     "answer" := VStr (py "Test answer");
     "explanation" := VStr (py "Test explanation");
     "dataviz_code" := VStr (py "plt.plot([1,2,3])");
     "has_results" := VBool true ]}.

(** A fresh orchestrator session. *)
Definition new_session (llm : LLM) (db : Database) : session :=
  {| self := {| self_llm := llm; self_db := db; self_state := ∅ |};
     figures := fresh_pyplot; history := [] |}.

(** Chart code that opens two figures and then fails. *)
Definition chart_two_then_raise : Code :=
  program [NewFigure false; NewFigure false; RaiseStmt (Failure (py "name 'x' is not defined"))].

(** Chart code that draws one figure and appends a list holding it:
    [fig = plt.figure(); figs.append([fig])]. *)
Definition chart_appends_list : Code :=
  program [NewFigure false; Append (Unhashable 0)].

(** Chart code that draws one figure and exits: [plt.figure(); sys.exit()]. *)
Definition chart_exits : Code := program [NewFigure false; Exit].

(** Chart code that clears pyplot, draws one figure and appends it. *)
Definition chart_reset_and_append : Code := program [CloseAll; NewFigure true].

(** Chart code that clears pyplot and draws one figure without appending. *)
Definition chart_reset_no_append : Code := program [CloseAll; NewFigure false].

(** The process the tests run in: key set, a warehouse with one row. *)
Definition test_runtime : Runtime := runtime fencing_llm (db_returning count_table).

(** The same process when the default model fails every call. *)
Definition failing_runtime : Runtime := runtime failing_llm (db_returning count_table).

(** The same process when the chart code the model writes is [code]. *)
Definition charting_runtime (code : Code) : Runtime :=
  {| GOOGLE_API_KEY := Some (py "test_key");
     init_chat_model := fencing_llm;
     get_instance := db_returning count_table;
     df_str := table_text;
     to_string := table_text;
     list_str := list_text;
     exec_code := λ _, code |}.

(** A table of 150 rows with a text of 80 characters in each. *)
Definition wide_table : DataFrame :=
  {| index_len := 150;
     columns := [(py "descricao", replicate 150 (StrCell (replicate 80 120%N)))] |}.

(** A process whose warehouse answers with that table. *)
Definition verbose_runtime : Runtime := runtime fencing_llm (db_returning wide_table).

(** The test state holding the table of long texts. *)
Definition long_state : gmap string PyVal :=
  <["result" := VDataFrame wide_table]> test_state.

(** The test state without its [has_results] key. *)
Definition flagless_state : gmap string PyVal := delete "has_results" test_state.

(** What [fencing_llm] makes [write_query] return. *)
Definition generated_query : gmap string PyVal :=
  {[ "query" := VStr (py "SELECT COUNT(*) AS count FROM creditRisk.train") ]}.

End Examples.

(** ** Notions the specification uses *)

(** "Entirely null": every value the table holds is null. *)
Definition entirely_null (df : DataFrame) : Prop :=
  ∀ col c, col ∈ columns df → c ∈ col.2 → c = NA.

(** [needle] occurs in [hay]. *)
Definition occurs_in (needle hay : pystr) : Prop :=
  ∃ before after, hay = before ++ needle ++ after.

(** The text that stands for a large table in the prompt: a note of the
    row count, then the rendering of the first 100 rows. *)
Definition truncated_note `{Runtime} (df : DataFrame) : pystr :=
  py "Resultado truncado (primeiras 100 linhas de " ++ str_nat (df_len df)
  ++ py " total):" ++ [10%N] ++ to_string (head 100 df).

(** The number of backticks a string starts with. *)
Fixpoint ticks (s : pystr) : nat :=
  match s with
  | c :: s' => if (96 =? c)%N then S (ticks s') else 0
  | [] => 0
  end.

(** ** Further concrete inputs *)

Module Scenarios.

(** The test state without its [query] key. *)
Definition queryless_state : gmap string PyVal := delete "query" Examples.test_state.

(** The test state whose [result] is the text [execute_query] stores when
    nothing was found. *)
Definition text_result_state : gmap string PyVal :=
  <["result" := VStr (py "Nenhum resultado encontrado.")]> Examples.test_state.

(** The test state with a key more than [GraphState] declares. *)
Definition annotated_state : gmap string PyVal :=
  <["note" := VStr (py "asked twice")]> Examples.test_state.

(** A process started without [GOOGLE_API_KEY]. *)
Definition keyless_runtime : Runtime :=
  {| GOOGLE_API_KEY := None;
     init_chat_model := Examples.fencing_llm;
     get_instance := Examples.db_returning Examples.count_table;
     df_str := Examples.table_text;
     to_string := Examples.table_text;
     list_str := Examples.list_text;
     exec_code := λ _, program [NewFigure true] |}.

End Scenarios.

(** ** Notions for statements about a turn *)

Module Turn.
Section turn.
Context `{Runtime}.

(** The state [initialize_state] creates for a question. *)
Definition fresh_state (db : Database) (question : pystr) : gmap string PyVal :=
  {[ "tables" := VList (get_tables db);
     "schema" := VStr (get_schemas db);
     "question" := VStr question;
     "query" := VStr [];
     "result" := VStr [];
     "answer" := VStr [];
     "explanation" := VStr [];
     "dataviz_code" := VStr [];
     "has_results" := VBool false ]}.

(** What lines 170-195 of [run_chainlit_workflow] do with a table and a
    chart source: the message they send, or what they raise, and the
    figure registry they leave. *)
Definition render_outcome (source : pystr) (df : DataFrame) (p : pyplot)
  : res exception message * pyplot :=
  if bool_decide (strip source = []) then (Ok EmptyCodeMessage, p)
  else
    match create_plot_figures (exec_code source) df p with
    | (Ok figs, p') =>
        (Ok (if bool_decide (figs = []) then NoFigureMessage
             else match pyplot_elements figs with
                  | Ok elements => FiguresMessage elements
                  | Raise viz_error => VisualizationErrorMessage (Builtin viz_error)
                  end), p')
    | (Raise e, p') =>
        if is_Exception e then (Ok (VisualizationErrorMessage e), p')
        else (Raise e, p')
    end.

(** The message of a rendering that sent one. *)
Definition sent (r : res exception message) : option message :=
  match r with Ok m => Some m | Raise _ => None end.

(** What a turn returns when its rendering ended with [r]. *)
Definition returned (r : res exception message) : res exception unit :=
  match r with Ok _ => Ok () | Raise e => Raise e end.

(** The session a method leaves: the orchestrator keeps its handles. *)
Definition session_with (s : session) (state : gmap string PyVal) (p : pyplot)
    (new : list entry) : session :=
  {| self := {| self_llm := self_llm (self s); self_db := self_db (self s);
                self_state := state |};
     figures := p;
     history := history s ++ new |}.

End turn.



(** The six keys the stages write. *)
Definition stage_fields : list string :=
  ["query"; "result"; "has_results"; "answer"; "explanation"; "dataviz_code"].

(** Two states that hold the same under every key [GraphState] declares. *)
Definition same_channels (s1 s2 : gmap string PyVal) : Prop :=
  ∀ key, bool_decide (key ∈ GraphState) = true → s1 !! key = s2 !! key.

End Turn.
Export Turn.

(** ** [database.py] *)

Module BigQuery.

(** A [bigquery.SchemaField], as far as the code reads it. *)
Record SchemaField : Type := mkField {
  name : pystr;
  field_type : pystr;
  mode : pystr
}.

(** The [bigquery.Client], by the three calls the code makes:
    [list_tables(dataset_ref)] gives the [table_id]s,
    [get_table(full_table_name).schema] the fields,
    [query(q).to_dataframe()] the result table. *)
Record Client : Type := mkClient {
  list_tables : pystr → res error (list pystr);
  get_table : pystr → res error (list SchemaField);
  query : PyVal → res error DataFrame
}.

(** What the process finds when the module is loaded. *)
Class Cloud : Type := mkCloud {
  (** [os.getenv("GCP_KEY_PATH", "./gcpkey.json")] *)
  GCP_KEY_PATH : pystr;
  (** [os.getenv("DATABASE_NAME", "creditRisk")] *)
  DATABASE_NAME : pystr;
  (** [os.path.exists(GCP_KEY_PATH)] *)
  key_file_exists : bool;
  (** loading the credentials and building the client, with the
      credentials' [project_id] *)
  connect : res error (Client * pystr)
}.

(** [for x in xs: ...] with a body that may raise. *)
Fixpoint for_each {A B} (body : A → res error B) (xs : list A) : res error (list B) :=
  match xs with
  | [] => Ok []
  | x :: xs' => y ← body x; ys ← for_each body xs'; Ok (y :: ys)
  end.

Section database.
Context `{Cloud}.

(** The descriptions of the fields of the [train] table. Code points above
    127 are written by number: 225 á, 227 ã, 233 é, 234 ê, 237 í, 243 ó. *)
Definition FIELDS_DESCR : gmap pystr (gmap pystr pystr) :=
  {[ DATABASE_NAME ++ py ".train" :=
       {[ py "REF_DATE" := py "data de refer" ++ [234%N] ++ py "ncia do registro";
          py "TARGET" :=
            py "alvo bin" ++ [225%N] ++ py "rio de inadimpl" ++ [234%N]
            ++ py "ncia (1: Mau Pagador, i.e. atraso > 60 dias em 2 meses)";
          py "VAR2" := py "sexo do indiv" ++ [237%N] ++ py "duo ('M' ou 'F')";
          py "IDADE" := py "idade do indiv" ++ [237%N] ++ py "duo";
          py "VAR4" :=
            py "flag de " ++ [243%N] ++ py "bito ('S' indica que o indiv" ++ [237%N]
            ++ py "duo faleceu e NULL que n" ++ [227%N] ++ py "o)";
          py "VAR5" := py "unidade federativa (UF / estado) brasileira";
          py "VAR8" :=
            py "classe social estimada (de A at" ++ [233%N] ++ py " E, onde A "
            ++ [233%N] ++ py " a mais alta e E a mais baixa)" ]} ]}.

Record BigQueryDatabase : Type := mkBigQueryDatabase {
  database_name : pystr;
  _client : Client;
  project_id : pystr;
  tables : list pystr;
  schemas : pystr
}.

Definition _create_client : res error (Client * pystr) :=
  if key_file_exists then connect
  else Raise (Failure (py "GCP key file not found in " ++ GCP_KEY_PATH)).

(** The [except] branch logs and returns no table. *)
Definition _load_tables (client : Client) (project_id database_name : pystr)
  : list pystr :=
  let dataset_ref := project_id ++ py "." ++ database_name in
  match list_tables client dataset_ref with
  | Ok table_ids => (λ table_id, database_name ++ py "." ++ table_id) <$> table_ids
  | Raise e => []
  end.

(** The line of a field that has a description. "Descrição" has 231 ç and
    227 ã. *)
Definition described_line (field : SchemaField) (description : pystr) : pystr :=
  py "Nome: " ++ name field ++ py ", Descri" ++ [231%N; 227%N] ++ py "o: "
  ++ description ++ py ", Tipo: " ++ field_type field ++ py ", Modo: " ++ mode field.

Definition plain_line (field : SchemaField) : pystr :=
  py "Nome: " ++ name field ++ py ", Tipo: " ++ field_type field
  ++ py ", Modo: " ++ mode field.

(** The body of the loop of [_generate_schemas]: the lines of one table. *)
Definition table_schema (client : Client) (project_id table_name : pystr)
  : res error (list pystr) :=
  let full_table_name := project_id ++ py "." ++ table_name in
  fields ← get_table client full_table_name;
  let header := py "Schema for " ++ table_name ++ py ":" in
  let lines :=
    match FIELDS_DESCR !! table_name with
    | Some descriptions =>
        (* if DESCR available for table, use only fields with descriptions *)
        omap (λ field, described_line field <$> descriptions !! name field) fields
    | None => plain_line <$> fields
    end in
  Ok (header :: lines ++ [[]]).

Definition _generate_schemas (client : Client) (project_id : pystr)
    (tables : list pystr) : res error pystr :=
  schemas ← for_each (table_schema client project_id) tables;
  Ok (join [10%N] (concat schemas)).

(** [BigQueryDatabase(database_name)] *)
Definition init (database_name : pystr) : res error BigQueryDatabase :=
  '(client, project_id) ← _create_client;
  let tables := _load_tables client project_id database_name in
  schemas ← _generate_schemas client project_id tables;
  Ok {| database_name := database_name; _client := client;
        project_id := project_id; tables := tables; schemas := schemas |}.

(** [run_query]: the [except] branch logs and raises again. *)
Definition bq_run_query (self : BigQueryDatabase) (q : PyVal) : res error DataFrame :=
  match query (_client self) q with
  | Ok df => Ok df
  | Raise e => Raise e
  end.

(** The object as the stages use it. *)
Definition as_database (self : BigQueryDatabase) : Database :=
  {| run_query := bq_run_query self;
     get_tables := tables self;
     get_schemas := schemas self |}.

(** The module-level [bigquery_db = BigQueryDatabase(DATABASE_NAME)]. *)
Definition bigquery_db : res error BigQueryDatabase := init DATABASE_NAME.

End database.
End BigQuery.

(** ** [app.py] *)

Module App.
Section app.
Context `{Runtime}.

(** [str(d)] of the dict inside [write_query]'s exception. *)
Variable dict_str : gmap string PyVal → pystr.

(** [str(e)]: an [Exception] with one argument prints as the argument,
    [SystemExit()] as the empty string. *)
Definition str_exception (e : exception) : pystr :=
  match e with
  | Builtin cause => str_error cause
  | ExceptionDict payload => dict_str payload
  | SystemExit => []
  end.

(** [on_chat_start]: the orchestrator the chat session keeps. *)
Definition on_chat_start : res exception WorkflowOrchestrator :=
  create_orchestrator None None.

(** [main(message)]: one turn, with every [Exception] turned into a
    message. *)
Definition main (content : pystr) : M unit :=
  try_except (run_chainlit_workflow content)
    (λ e, record (Send (TextMessage
                    (VStr (py "Desculpe, ocorreu um erro no fluxo: "
                           ++ str_exception e))))).

(** The session after a sequence of messages. *)
Definition conversation (contents : list pystr) (s : session) : session :=
  foldl (λ s content, (main content s).2) s contents.

End app.
End App.
Export App.

(** ** Concrete clouds *)

Module Clouds.
Import BigQuery.

(** Two fields of the [train] table: one with a description in
    [FIELDS_DESCR], one without. *)
Definition ref_date : SchemaField :=
  {| name := py "REF_DATE"; field_type := py "DATE"; mode := py "NULLABLE" |}.
Definition var9 : SchemaField :=
  {| name := py "VAR9"; field_type := py "STRING"; mode := py "NULLABLE" |}.

(** A client of a project with the one table [train]. *)
Definition train_client : Client :=
  {| list_tables := λ _, Ok [py "train"];
     get_table := λ _, Ok [ref_date; var9];
     query := λ _, Ok Examples.count_table |}.

(** A client whose table listing fails. *)
Definition unlisted_client : Client :=
  {| list_tables := λ _, Raise (Failure (py "403 Access Denied"));
     get_table := λ _, Ok [ref_date; var9];
     query := λ _, Ok Examples.count_table |}.

Definition cloud (key_file : bool) (client : Client) : Cloud :=
  {| GCP_KEY_PATH := py "./gcpkey.json";
     DATABASE_NAME := py "creditRisk";
     key_file_exists := key_file;
     connect := Ok (client, py "my-project") |}.

(** The dict-to-text rendering used for the apology message in the
    scenarios. *)
Definition no_dict_text : gmap string PyVal → pystr := λ _, py "{...}".

(** A state holding a text result longer than the prompt threshold. *)
Definition long_text_state : gmap string PyVal :=
  <["result" := VStr (replicate (N.to_nat 10001) 120%N)]> Examples.test_state.

End Clouds.

(** * Properties *)

(** ** Strings *)

Lemma startswith_app p s : startswith p (p ++ s) = true.
Proof.
  induction p as [|a p IH]; [done|].
  simpl. by rewrite N.eqb_refl, IH.
Qed.

Lemma startswith_prefix p s : startswith p s = true ↔ ∃ t, s = p ++ t.
Proof.
  split.
  - revert s. induction p as [|a p IH]; intros s Hs; [by exists s|].
    destruct s as [|b s]; [done|]. simpl in Hs.
    apply andb_true_iff in Hs as [Hab Hs]. apply N.eqb_eq in Hab as ->.
    destruct (IH _ Hs) as [t ->]. by exists t.
  - intros [t ->]. apply startswith_app.
Qed.

Lemma startswith_py_in needle hay : startswith needle hay = true → py_in needle hay = true.
Proof. intros Hs. destruct hay; simpl; by rewrite Hs. Qed.

Lemma py_in_occurs needle hay : py_in needle hay = true ↔ occurs_in needle hay.
Proof.
  split.
  - induction hay as [|c hay IH]; simpl; intros Hin.
    + rewrite orb_false_r in Hin. apply startswith_prefix in Hin as [t Ht].
      by exists [], t.
    + apply orb_true_iff in Hin as [Hin|Hin].
      * apply startswith_prefix in Hin as [t Ht]. by exists [], t.
      * destruct (IH Hin) as (before & after & ->). by exists (c :: before), after.
  - intros (before & after & ->).
    induction before as [|c before IH]; simpl.
    + apply startswith_py_in, startswith_app.
    + by rewrite IH, orb_true_r.
Qed.

(** *** [replace] *)

Lemma replace_nil o old' new : replace (o :: old') new [] = [].
Proof. by simp replace. Qed.

Lemma replace_match o old' new c s' :
  startswith (o :: old') (c :: s') = true →
  replace (o :: old') new (c :: s')
  = new ++ replace (o :: old') new (drop (length old') s').
Proof. intros Hm. simp replace. rewrite Hm. by simp replace. Qed.

Lemma replace_no_match o old' new c s' :
  startswith (o :: old') (c :: s') = false →
  replace (o :: old') new (c :: s') = c :: replace (o :: old') new s'.
Proof. intros Hm. simp replace. rewrite Hm. by simp replace. Qed.

(** *** [strip] *)

Lemma lstrip_suffix s : ∃ ws, s = ws ++ lstrip s.
Proof.
  induction s as [|c s [ws IH]]; [by exists []|]. simpl.
  destruct (isspace c); [|by exists []].
  exists (c :: ws). simpl. by rewrite <- IH.
Qed.

(** A string that [lstrip] leaves alone: empty, or not starting with a
    space. *)
Lemma lstrip_fixed s :
  lstrip s = s ↔ s = [] ∨ ∃ c s', s = c :: s' ∧ isspace c = false.
Proof.
  split.
  - destruct s as [|c s']; [by left|]. simpl.
    destruct (isspace c) eqn:Hc; [|by eauto].
    intros Heq. destruct (lstrip_suffix s') as [ws Hws].
    apply (f_equal length) in Heq, Hws. rewrite length_app in Hws. simpl in Heq. lia.
  - intros [->|(c & s' & -> & Hc)]; [done|]. simpl. by rewrite Hc.
Qed.

Lemma lstrip_idemp s : lstrip (lstrip s) = lstrip s.
Proof.
  induction s as [|c s IH]; [done|]. simpl.
  destruct (isspace c) eqn:Hc; [done|]. simpl. by rewrite Hc.
Qed.

Lemma rstrip_prefix s : ∃ ws, s = rstrip s ++ ws.
Proof.
  unfold rstrip. destruct (lstrip_suffix (reverse s)) as [ws Hws].
  exists (reverse ws). rewrite <- reverse_app, <- Hws. by rewrite reverse_involutive.
Qed.

Lemma rstrip_keeps_lstrip_fixed s : lstrip s = s → lstrip (rstrip s) = rstrip s.
Proof.
  intros Hs. apply lstrip_fixed in Hs as [->|(c & s' & -> & Hc)]; [done|].
  apply lstrip_fixed. destruct (rstrip_prefix (c :: s')) as [ws Hws].
  destruct (rstrip (c :: s')) as [|c' r]; [by left|].
  right. exists c', r. split; [done|]. by injection Hws as -> _.
Qed.

Lemma strip_fixed s : lstrip s = s → lstrip (reverse s) = reverse s → strip s = s.
Proof.
  intros Hl Hr. unfold strip, rstrip. rewrite Hl, Hr. apply reverse_involutive.
Qed.

Lemma strip_idemp s : strip (strip s) = strip s.
Proof.
  apply strip_fixed.
  - unfold strip. apply rstrip_keeps_lstrip_fixed, lstrip_idemp.
  - unfold strip, rstrip. rewrite reverse_involutive. apply lstrip_idemp.
Qed.

(** What [strip] returns lies inside its argument. *)
Lemma strip_infix s : ∃ before after, s = before ++ strip s ++ after.
Proof.
  destruct (lstrip_suffix s) as [ws1 H1].
  destruct (rstrip_prefix (lstrip s)) as [ws2 H2].
  exists ws1, ws2. unfold strip. by rewrite <- H2.
Qed.

(** *** Fences *)

Lemma startswith_fence_ticks s : startswith (py "```") s = true ↔ 3 ≤ ticks s.
Proof.
  change (py "```") with [96; 96; 96]%N.
  destruct s as [|a [|b [|c s]]]; cbn [startswith ticks andb];
    repeat (destruct (96 =? _)%N; cbn [andb]); split; (done || lia).
Qed.

Lemma replace_fence_ticks s :
  py_in (py "```") (replace (py "```") [] s) = false
  ∧ ticks (replace (py "```") [] s) ≤ 2
  ∧ (ticks s ≤ 2 → ticks (replace (py "```") [] s) = ticks s).
Proof.
  remember (length s) as n eqn:Hn. revert s Hn.
  induction n as [n IH] using lt_wf_ind. intros s ->.
  change (py "```") with [96; 96; 96]%N in *.
  destruct s as [|c s'].
  - rewrite replace_nil. cbn. split; [done|]. split; [lia|done].
  - destruct (startswith [96; 96; 96]%N (c :: s')) eqn:Hm.
    + rewrite replace_match by done. simpl app.
      destruct (IH (length (drop 2 s'))) with (s := drop 2 s') as (Hin & Hle & _);
        [rewrite length_drop; simpl; lia|done|].
      split; [done|]. split; [done|].
      apply startswith_fence_ticks in Hm. lia.
    + rewrite replace_no_match by done.
      destruct (IH (length s')) with (s := s') as (Hin & Hle & Hsame);
        [simpl; lia|done|].
      assert (ticks (c :: s') ≤ 2) as Hticks.
      { destruct (decide (3 ≤ ticks (c :: s'))) as [H3|]; [|lia].
        apply startswith_fence_ticks in H3.
        change (py "```") with [96; 96; 96]%N in H3. congruence. }
      assert (ticks (c :: replace [96; 96; 96]%N [] s')
              = ticks (c :: s')) as Heq.
      { cbn [ticks] in *. destruct (96 =? c)%N; [|done]. rewrite Hsame; lia. }
      split; [|split; [lia|done]].
      cbn [py_in]. rewrite Hin, orb_false_r.
      apply not_true_is_false. intros Hstart.
      apply (startswith_fence_ticks (c :: replace _ _ s')) in Hstart. lia.
Qed.

(** A string in which no fence occurs does not start with a fence followed
    by a language tag. *)
Lemma no_fence_no_tagged_fence tag s :
  py_in (py "```") s = false → startswith (py "```" ++ tag) s = false.
Proof.
  intros Hin. apply not_true_is_false. intros Hstart.
  apply startswith_prefix in Hstart as [t ->].
  rewrite <- app_assoc, startswith_py_in in Hin; [done|]. apply startswith_app.
Qed.

Lemma no_fence_strip s :
  py_in (py "```") s = false → py_in (py "```") (strip s) = false.
Proof.
  intros Hin. apply not_true_is_false. intros Hstrip.
  apply py_in_occurs in Hstrip as (b1 & a1 & Hocc).
  destruct (strip_infix s) as (b2 & a2 & Hs).
  assert (py_in (py "```") s = true) as Hyes; [|congruence].
  apply py_in_occurs. exists (b2 ++ b1), (a1 ++ a2).
  rewrite Hs, Hocc. by rewrite <- !app_assoc.
Qed.

(** Removing the fences of a text that starts with a tagged fence leaves a
    stripped text that does not start with one. *)
Lemma unfenced_is_unwrapped tag text :
  let out := strip (replace (py "```") [] (replace (py "```" ++ tag) [] text)) in
  strip out = out ∧ startswith (py "```" ++ tag) out = false.
Proof.
  split; [apply strip_idemp|].
  apply no_fence_no_tagged_fence, no_fence_strip, replace_fence_ticks.
Qed.

(** C6. The fence stripping of [write_query] and that of
    [create_visualization] are idempotent: applied to their own output
    they return it unchanged. *)
Theorem fence_stripping_idempotent (text : pystr) :
  strip_sql_fence (strip_sql_fence text) = strip_sql_fence text
  ∧ strip_python_fence (strip_python_fence text) = strip_python_fence text.
Proof.
  split.
  - unfold strip_sql_fence.
    change (py "```sql") with (py "```" ++ py "sql").
    destruct (startswith (py "```" ++ py "sql") (strip text)) eqn:Hfence.
    + destruct (unfenced_is_unwrapped (py "sql") (strip text)) as [Hs Hf].
      by rewrite Hs, Hf.
    + by rewrite strip_idemp, Hfence.
  - unfold strip_python_fence.
    change (py "```python") with (py "```" ++ py "python").
    destruct (startswith (py "```" ++ py "python") (strip text)) eqn:Hfence.
    + destruct (unfenced_is_unwrapped (py "python") (strip text)) as [Hs Hf].
      by rewrite !Hs, Hf, Hs.
    + by rewrite !strip_idemp, Hfence, strip_idemp.
Qed.

(** A text whose fences only appear once the tagged one is removed. *)
Example strip_sql_fence_nested :
  strip_sql_fence (py "```sql`````sql`sql SELECT 1") = py "sql SELECT 1".
Proof. reflexivity. Qed.

(** ** Tables *)

Lemma isnull_all_all_spec df : isnull_all_all df = true ↔ entirely_null df.
Proof.
  unfold isnull_all_all, entirely_null. rewrite forallb_forall. split.
  - intros Hall col c Hcol Hc.
    apply list_elem_of_In, Hall in Hcol. rewrite forallb_forall in Hcol.
    apply list_elem_of_In, Hcol in Hc. by destruct c.
  - intros Hnull col Hcol. apply forallb_forall. intros c Hc.
    rewrite (Hnull col c); [done| |]; by apply list_elem_of_In.
Qed.

(** A table with a value that is not null has a row and a column. *)
Lemma not_entirely_null_columns df : ¬ entirely_null df → columns df ≠ [].
Proof.
  intros Hnn Hnil. apply Hnn. intros col c Hcol. rewrite Hnil in Hcol.
  by apply elem_of_nil in Hcol.
Qed.

(** ** [execute_query] *)

Section execute_query.
Context `{Runtime}.

(** C2. When the warehouse returns a table: with at least one row and some
    value that is not null, [execute_query] returns that table with
    [has_results = True]; with no row, or with every value null, it returns
    the canned message with [has_results = False]. Either way both keys
    come in the one returned update. *)
Theorem execute_query_table (state : gmap string PyVal) (db : option Database)
    (query : PyVal) (result_df : DataFrame) :
  state !! "query" = Some query →
  run_query (default get_default_db db) query = Ok result_df →
  (1 ≤ df_len result_df ∧ ¬ entirely_null result_df →
     execute_query state db
     = Ok {[ "result" := VDataFrame result_df; "has_results" := VBool true ]})
  ∧ (df_len result_df = 0 ∨ entirely_null result_df →
     execute_query state db
     = Ok {[ "result" := VStr (py "Nenhum resultado encontrado.");
             "has_results" := VBool false ]}).
Proof.
  intros Hq Hrun. unfold execute_query, getitem. rewrite Hq. simpl. rewrite Hrun.
  simpl. split.
  - intros [Hrows Hnn].
    assert (isnull_all_all result_df = false) as ->.
    { apply not_true_is_false. by rewrite isnull_all_all_spec. }
    apply not_entirely_null_columns in Hnn.
    unfold empty, df_len in *.
    destruct (columns result_df); [done|].
    destruct (index_len result_df); [lia|]. done.
  - intros [Hrows|Hnull].
    + unfold empty, df_len in *. by rewrite Hrows.
    + apply isnull_all_all_spec in Hnull. rewrite Hnull.
      by rewrite andb_false_r.
Qed.

(** C3. When the warehouse raises, [execute_query] returns: the update has
    [has_results = False] and a [result] string in which
    "Error executing query" occurs. *)
Theorem execute_query_error (state : gmap string PyVal) (db : option Database)
    (query : PyVal) (e : error) :
  state !! "query" = Some query →
  run_query (default get_default_db db) query = Raise e →
  ∃ error_msg,
    execute_query state db
    = Ok {[ "result" := VStr error_msg; "has_results" := VBool false ]}
    ∧ error_msg = py "Error executing query: " ++ str_error e
    ∧ py_in (py "Error executing query") error_msg = true.
Proof.
  intros Hq Hrun. eexists. split; [|split; [reflexivity|]].
  - unfold execute_query, getitem. rewrite Hq. simpl. by rewrite Hrun.
  - apply py_in_occurs. exists [], (py ": " ++ str_error e). done.
Qed.

End execute_query.

Lemma execute_query_table_witness :
  execute_query (H := Examples.test_runtime) Examples.test_state None
  = Ok {[ "result" := VDataFrame Examples.count_table; "has_results" := VBool true ]}
  ∧ execute_query (H := Examples.test_runtime) Examples.test_state
      (Some (Examples.db_returning Examples.null_table))
    = Ok {[ "result" := VStr (py "Nenhum resultado encontrado.");
            "has_results" := VBool false ]}.
Proof.
  split.
  - apply (execute_query_table (H := Examples.test_runtime) Examples.test_state None
             (VStr (py "SELECT * FROM test")) Examples.count_table eq_refl eq_refl).
    split; [simpl; lia|].
    intros Hnull.
    specialize (Hnull (py "count", [IntCell 10]) (IntCell 10)
                  ltac:(apply list_elem_of_here) ltac:(apply list_elem_of_here)).
    discriminate Hnull.
  - apply (execute_query_table (H := Examples.test_runtime) Examples.test_state
             (Some (Examples.db_returning Examples.null_table))
             (VStr (py "SELECT * FROM test")) Examples.null_table eq_refl eq_refl).
    right. apply isnull_all_all_spec. reflexivity.
Defined.

Lemma execute_query_error_witness :
  ∃ error_msg,
    execute_query (H := Examples.test_runtime) Examples.test_state
      (Some Examples.db_raising)
    = Ok {[ "result" := VStr error_msg; "has_results" := VBool false ]}
    ∧ error_msg = py "Error executing query: " ++ py "DB Error"
    ∧ py_in (py "Error executing query") error_msg = true.
Proof.
  apply (execute_query_error (H := Examples.test_runtime) Examples.test_state
           (Some Examples.db_raising) (VStr (py "SELECT * FROM test"))
           (Failure (py "DB Error")) eq_refl eq_refl).
Defined.

(** ** [handle_no_results] and the fork *)

(** C5. [handle_no_results] returns the same answer whatever the state
    holds, and the phrase "não retornou nenhum resultado" occurs in it. It
    takes no model handle. *)
Theorem handle_no_results_fixed (state state' : gmap string PyVal) :
  handle_no_results state = Ok {[ "answer" := VStr no_results_answer ]}
  ∧ handle_no_results state = handle_no_results state'
  ∧ py_in (py "n" ++ [227%N] ++ py "o retornou nenhum resultado") no_results_answer
    = true.
Proof. split; [done|]. split; [done|]. by vm_compute. Qed.

(** C10. A state without the [has_results] key is routed to
    [handle_no_results], exactly as one that holds [False] under it; the
    router answers [generate_answer] only if the key is present with a true
    value. *)
Theorem router_missing_flag (state : gmap string PyVal) :
  (state !! "has_results" = None →
     should_continue_workflow state = Ok "handle_no_results"
     ∧ should_continue_workflow state
       = should_continue_workflow (<["has_results" := VBool false]> state))
  ∧ (should_continue_workflow state = Ok "generate_answer" →
     ∃ v, state !! "has_results" = Some v ∧ truthy v = Ok true)
  ∧ (∀ b : bool, state !! "has_results" = Some (VBool b) →
     should_continue_workflow state
     = Ok (if b then "generate_answer" else "handle_no_results")).
Proof.
  unfold should_continue_workflow, get. split; [|split].
  - intros Hnone. rewrite Hnone, lookup_insert_eq. done.
  - destruct (state !! "has_results") as [v|] eqn:Hv; simpl; [|done].
    intros Hroute. exists v. split; [done|].
    destruct (truthy v) as [[]|]; simpl in *; done.
  - intros b Hb. rewrite Hb. by destruct b.
Qed.

Lemma router_missing_flag_witness :
  should_continue_workflow Examples.flagless_state = Ok "handle_no_results"
  ∧ (∃ v, Examples.test_state !! "has_results" = Some v ∧ truthy v = Ok true)
  ∧ should_continue_workflow Examples.test_state = Ok "generate_answer".
Proof.
  split; [|split].
  - apply (proj1 (router_missing_flag Examples.flagless_state)). reflexivity.
  - apply (proj1 (proj2 (router_missing_flag Examples.test_state))). reflexivity.
  - apply (proj2 (proj2 (router_missing_flag Examples.test_state)) true). reflexivity.
Defined.

(** ** The model stages *)

Section model_stages.
Context `{Runtime}.

(** With a model handle at hand, the three model stages always return,
    each an update of its own single key. *)
Lemma generate_answer_returns state llm l :
  llm_or_default llm = Ok l →
  ∃ a, generate_answer state llm = Ok {[ "answer" := VStr a ]}.
Proof.
  intros Hl. unfold generate_answer. rewrite Hl. simpl.
  destruct (answer_variables state) as [vars|e]; simpl; [|by eexists].
  destruct (l answer_system_prompt vars); simpl; by eexists.
Qed.

Lemma explain_answer_returns state llm l :
  llm_or_default llm = Ok l →
  ∃ a, explain_answer state llm = Ok {[ "explanation" := VStr a ]}.
Proof.
  intros Hl. unfold explain_answer. rewrite Hl. simpl.
  destruct (explanation_variables state) as [vars|e]; simpl; [|by eexists].
  destruct (l explain_system_prompt vars); simpl; by eexists.
Qed.

Lemma create_visualization_returns state llm l :
  llm_or_default llm = Ok l →
  ∃ a, create_visualization state llm = Ok {[ "dataviz_code" := VStr a ]}.
Proof.
  intros Hl. unfold create_visualization. rewrite Hl. simpl.
  destruct (getitem state "result") as [result|e]; simpl; [|by eexists].
  destruct (as_table result "empty") as [df|e]; simpl; [|by eexists].
  destruct (negb (empty df)); simpl;
    (destruct (getitem state "question"); simpl; [|by eexists]);
    (destruct (getitem state "query"); simpl; [|by eexists]);
    match goal with |- context [l dataviz_system_prompt ?v] =>
      destruct (l dataviz_system_prompt v) end; simpl; by eexists.
Qed.

(** Whenever the model call of [write_query] fails, [write_query] raises:
    the error string it builds travels inside the exception. *)
Lemma write_query_failure_raises state l question tables schema lines e :
  state !! "question" = Some question →
  state !! "tables" = Some tables →
  join_lines tables = Ok lines →
  state !! "schema" = Some schema →
  l write_query_system_prompt
    {[ "question" := question; "tables" := VStr lines; "schema" := schema ]}
  = Raise e →
  write_query state (Some l)
  = Raise (ExceptionDict
      {[ "query" := VStr (py "-- Error generating query: " ++ str_error e) ]}).
Proof.
  intros Hq Ht Hj Hs Hcall. unfold write_query, getitem. simpl.
  rewrite Hq, Ht. simpl. rewrite Hj, Hs. simpl. by rewrite Hcall.
Qed.

(** C7. When the state's result is a table whose [str()] is longer than
    10000 characters, [generate_answer] and [explain_answer] call the model
    with the rendering of its first 100 rows behind a note of its row count
    in place of the table, and each returns one key of its own, so the
    state keeps the whole table under [result]. *)
Theorem large_result_truncated_in_prompt (state : gmap string PyVal) (df : DataFrame) :
  state !! "result" = Some (VDataFrame df) →
  (10000 < N.of_nat (len (df_str df)))%N →
  result_for_llm state = Ok (VStr (truncated_note df))
  ∧ (index_len (head 100 df) = min 100 (index_len df)
     ∧ columns (head 100 df) = (λ col, (col.1, take 100 col.2)) <$> columns df)
  ∧ (∀ question query, state !! "question" = Some question →
       state !! "query" = Some query →
       answer_variables state
       = Ok {[ "question" := question; "query" := query;
               "result" := VStr (truncated_note df) ]})
  ∧ (∀ question query answer, state !! "question" = Some question →
       state !! "query" = Some query → state !! "answer" = Some answer →
       explanation_variables state
       = Ok {[ "question" := question; "query" := query;
               "result" := VStr (truncated_note df); "answer" := answer ]})
  ∧ (∀ llm l question query, llm_or_default llm = Ok l →
       state !! "question" = Some question → state !! "query" = Some query →
       generate_answer state llm
       = match l answer_system_prompt
                 {[ "question" := question; "query" := query;
                    "result" := VStr (truncated_note df) ]} with
         | Ok answer => Ok {[ "answer" := VStr (strip answer) ]}
         | Raise e =>
             Ok {[ "answer" := VStr (py "Error generating answer: " ++ str_error e) ]}
         end)
  ∧ (∀ llm l question query answer, llm_or_default llm = Ok l →
       state !! "question" = Some question → state !! "query" = Some query →
       state !! "answer" = Some answer →
       explain_answer state llm
       = match l explain_system_prompt
                 {[ "question" := question; "query" := query;
                    "result" := VStr (truncated_note df); "answer" := answer ]} with
         | Ok explanation => Ok {[ "explanation" := VStr (strip explanation) ]}
         | Raise e =>
             Ok {[ "explanation" :=
                     VStr (py "Error generating explanation: " ++ str_error e) ]}
         end)
  ∧ (∀ llm l, llm_or_default llm = Ok l →
       (∃ a, generate_answer state llm = Ok {[ "answer" := VStr a ]}
             ∧ update state {[ "answer" := VStr a ]} !! "result"
               = Some (VDataFrame df))
       ∧ (∃ a, explain_answer state llm = Ok {[ "explanation" := VStr a ]}
               ∧ update state {[ "explanation" := VStr a ]} !! "result"
                 = Some (VDataFrame df))).
Proof.
  intros Hres Hlong.
  assert (result_for_llm state = Ok (VStr (truncated_note df))) as Hprompt.
  { unfold result_for_llm, getitem. rewrite Hres. simpl.
    apply N.ltb_lt in Hlong. by rewrite Hlong. }
  assert (∀ question query, state !! "question" = Some question →
            state !! "query" = Some query →
            answer_variables state
            = Ok {[ "question" := question; "query" := query;
                    "result" := VStr (truncated_note df) ]}) as Hanswer.
  { intros question query Hq Hy. unfold answer_variables. rewrite Hprompt.
    unfold getitem. rewrite Hq, Hy. done. }
  assert (∀ question query answer, state !! "question" = Some question →
            state !! "query" = Some query → state !! "answer" = Some answer →
            explanation_variables state
            = Ok {[ "question" := question; "query" := query;
                    "result" := VStr (truncated_note df); "answer" := answer ]})
    as Hexplain.
  { intros question query answer Hq Hy Ha. unfold explanation_variables.
    rewrite Hprompt. unfold getitem. rewrite Hq, Hy, Ha. done. }
  split; [done|]. split; [done|]. split; [exact Hanswer|]. split; [exact Hexplain|].
  split; [|split].
  - intros llm l question query Hl Hq Hy. unfold generate_answer.
    rewrite Hl, (Hanswer _ _ Hq Hy). cbn -[py str_error strip].
    by destruct (l answer_system_prompt _).
  - intros llm l question query answer Hl Hq Hy Ha. unfold explain_answer.
    rewrite Hl, (Hexplain _ _ _ Hq Hy Ha). cbn -[py str_error strip].
    by destruct (l explain_system_prompt _).
  - intros llm l Hl. split.
    + destruct (generate_answer_returns state llm l Hl) as [a Ha].
      exists a. split; [done|]. unfold update.
      rewrite lookup_union_r; [done|]. by rewrite lookup_singleton_ne.
    + destruct (explain_answer_returns state llm l Hl) as [a Ha].
      exists a. split; [done|]. unfold update.
      rewrite lookup_union_r; [done|]. by rewrite lookup_singleton_ne.
Qed.

(** X26. A result that is a long text, not a table, reaches no prompt: the
    stage answers with the error of [.head] and calls no model. *)
Lemma large_text_result_not_sent state text llm l :
  state !! "result" = Some (VStr text) →
  (10000 < N.of_nat (len text))%N →
  llm_or_default llm = Ok l →
  generate_answer state llm
  = Ok {[ "answer" :=
            VStr (py "Error generating answer: "
                  ++ py "'str' object has no attribute 'head'") ]}.
Proof.
  intros Hres Hlong Hl. unfold generate_answer, answer_variables, result_for_llm.
  rewrite Hl. unfold getitem. rewrite Hres. simpl.
  apply N.ltb_lt in Hlong. by rewrite Hlong.
Qed.

End model_stages.

Lemma large_result_truncated_in_prompt_witness :
  let note := truncated_note (H := Examples.verbose_runtime) Examples.wide_table in
  generate_answer (H := Examples.verbose_runtime) Examples.long_state None
  = match Examples.fencing_llm answer_system_prompt
            {[ "question" := VStr (py "Test question");
               "query" := VStr (py "SELECT * FROM test");
               "result" := VStr note ]} with
    | Ok answer => Ok {[ "answer" := VStr (strip answer) ]}
    | Raise e =>
        Ok {[ "answer" := VStr (py "Error generating answer: " ++ str_error e) ]}
    end
  ∧ explain_answer (H := Examples.verbose_runtime) Examples.long_state None
    = match Examples.fencing_llm explain_system_prompt
              {[ "question" := VStr (py "Test question");
                 "query" := VStr (py "SELECT * FROM test");
                 "result" := VStr note;
                 "answer" := VStr (py "Test answer") ]} with
      | Ok explanation => Ok {[ "explanation" := VStr (strip explanation) ]}
      | Raise e =>
          Ok {[ "explanation" :=
                  VStr (py "Error generating explanation: " ++ str_error e) ]}
      end
  ∧ df_len (head 100 Examples.wide_table) = 100
  ∧ ∃ a, generate_answer (H := Examples.verbose_runtime) Examples.long_state None
         = Ok {[ "answer" := VStr a ]}
         ∧ update Examples.long_state {[ "answer" := VStr a ]} !! "result"
           = Some (VDataFrame Examples.wide_table).
Proof.
  assert (10000 < N.of_nat (len (df_str (Runtime := Examples.verbose_runtime)
                                   Examples.wide_table)))%N as Hlong
    by (vm_compute; reflexivity).
  destruct (large_result_truncated_in_prompt (H := Examples.verbose_runtime)
              Examples.long_state Examples.wide_table eq_refl Hlong)
    as (_ & [Hrows _] & _ & _ & Hanswer & Hexplain & Hframe).
  cbv zeta. split; [|split; [|split]].
  - exact (Hanswer None Examples.fencing_llm _ _ eq_refl eq_refl eq_refl).
  - exact (Hexplain None Examples.fencing_llm _ _ _ eq_refl eq_refl eq_refl eq_refl).
  - exact Hrows.
  - exact (proj1 (Hframe None Examples.fencing_llm eq_refl)).
Defined.

(** ** The graph of [create_sql_workflow] *)

Section sql_workflow.
Context `{Runtime}.

(** [execute_query] always returns both keys, the flag as a boolean, and
    the flag is true only next to a table. *)
Lemma execute_query_returns state db :
  ∃ v b, execute_query state db
         = Ok {[ "result" := v; "has_results" := VBool b ]}
         ∧ (b = true → ∃ df, v = VDataFrame df ∧ empty df = false).
Proof.
  unfold execute_query.
  destruct (getitem state "query") as [query|e]; simpl.
  - destruct (run_query _ query) as [df|e]; simpl.
    + destruct (empty df) eqn:Hempty; simpl.
      * do 2 eexists. split; [done|]. done.
      * destruct (_ && _); do 2 eexists; (split; [done|]); [by eauto|done].
    + do 2 eexists. split; [done|]. done.
  - do 2 eexists. split; [done|]. done.
Qed.

(** A channel keeps its value, any other key has none. *)
Lemma channel_values_lookup g d key :
  channel_values g d !! key
  = if bool_decide (key ∈ channels g) then d !! key else None.
Proof.
  unfold channel_values. case_bool_decide as Hkey.
  - destruct (d !! key) as [v|] eqn:Hv.
    + by apply map_lookup_filter_Some.
    + apply map_lookup_filter_None. by left.
  - apply map_lookup_filter_None. right. by intros v _.
Qed.

Lemma channel_values_declared g d :
  (∀ key, is_Some (d !! key) → key ∈ channels g) → channel_values g d = d.
Proof.
  intros Hd. apply map_eq. intros key. rewrite channel_values_lookup.
  case_bool_decide as Hkey; [done|].
  destruct (d !! key) as [v|] eqn:Hv; [|done].
  destruct Hkey. apply Hd. by eexists.
Qed.

(** The updates the stages return hold channels only. *)
Lemma channel_values_singleton key v :
  bool_decide (key ∈ GraphState) = true →
  channel_values create_sql_workflow {[ key := v ]} = {[ key := v ]}.
Proof.
  intros Hkey%bool_decide_eq_true. apply channel_values_declared.
  intros key' [v' Hv']. by apply lookup_singleton_Some in Hv' as [<- _].
Qed.

Lemma channel_values_execute_query v w :
  channel_values create_sql_workflow {[ "result" := v; "has_results" := w ]}
  = {[ "result" := v; "has_results" := w ]}.
Proof.
  apply channel_values_declared. intros key [v' Hv'].
  apply lookup_insert_Some in Hv' as [[<- _]|[_ Hv']].
  - apply (bool_decide_unpack _). by vm_compute.
  - apply lookup_singleton_Some in Hv' as [<- _].
    apply (bool_decide_unpack _). by vm_compute.
Qed.

(** The stages read declared keys only, so they cannot tell the input of a
    run from its channels. *)
Lemma same_channels_input state :
  same_channels (channel_values create_sql_workflow state) state.
Proof.
  intros key Hkey. rewrite channel_values_lookup.
  change (channels create_sql_workflow) with GraphState. by rewrite Hkey.
Qed.

Lemma same_channels_update s1 s2 u :
  same_channels s1 s2 → same_channels (update s1 u) (update s2 u).
Proof.
  intros Hsame key Hkey. unfold update. rewrite !lookup_union.
  by rewrite (Hsame key Hkey).
Qed.

Lemma same_channels_sym s1 s2 : same_channels s1 s2 → same_channels s2 s1.
Proof. intros Hsame key Hkey. symmetry. by apply Hsame. Qed.

Lemma write_query_same_channels s1 s2 llm :
  same_channels s1 s2 → write_query s1 llm = write_query s2 llm.
Proof.
  intros Hsame. unfold write_query, getitem.
  by rewrite (Hsame "question" eq_refl), (Hsame "tables" eq_refl),
    (Hsame "schema" eq_refl).
Qed.

Lemma execute_query_same_channels s1 s2 db :
  same_channels s1 s2 → execute_query s1 db = execute_query s2 db.
Proof.
  intros Hsame. unfold execute_query, getitem. by rewrite (Hsame "query" eq_refl).
Qed.

Lemma run_from_step g fuel node state action output :
  node ≠ END →
  nodes g !! node = Some action →
  action state = Ok output →
  channel_values g output = output →
  run_from g (S fuel) node state
  = match successor g node (update state output) with
    | Raise e => mkRun [Ran node output] (update state output) (Raised e)
    | Ok None => mkRun [Ran node output] (update state output) (InvalidGraph node)
    | Ok (Some (routed, target)) =>
        after (Ran node output :: routed)
              (run_from g fuel target (update state output))
    end.
Proof.
  intros Hne Hnode Hact Hout. simpl. rewrite decide_False by done.
  by rewrite Hnode, Hact, Hout.
Qed.

Lemma run_from_raise g fuel node state action e :
  node ≠ END →
  nodes g !! node = Some action →
  action state = Raise e →
  run_from g (S fuel) node state = mkRun [] state (Raised e).
Proof.
  intros Hne Hnode Hact. simpl. rewrite decide_False by done.
  by rewrite Hnode, Hact.
Qed.

Lemma events_after evs r : events (after evs r) = evs ++ events r.
Proof. reflexivity. Qed.

Lemma result_after evs r : result (after evs r) = result r.
Proof. reflexivity. Qed.

Lemma run_from_end g fuel state : run_from g fuel END state = mkRun [] state Finished.
Proof. by destruct fuel. Qed.

(** The router on a state into which [execute_query]'s update was merged. *)
Lemma route_after_execute_query state v (b : bool) :
  should_continue_workflow
    (update state {[ "result" := v; "has_results" := VBool b ]})
  = Ok (if b then "generate_answer" else "handle_no_results").
Proof.
  unfold should_continue_workflow, get, update.
  rewrite (lookup_union_Some_l _ _ _ (VBool b)); [by destruct b|].
  rewrite lookup_insert_ne by done. apply lookup_singleton_eq.
Qed.

Lemma node_execute_query :
  nodes create_sql_workflow !! "execute_query" = Some (λ state, execute_query state None).
Proof. reflexivity. Qed.

Lemma node_generate_answer :
  nodes create_sql_workflow !! "generate_answer" = Some (λ state, generate_answer state None).
Proof. reflexivity. Qed.

Lemma node_explain_answer :
  nodes create_sql_workflow !! "explain_answer" = Some (λ state, explain_answer state None).
Proof. reflexivity. Qed.

Lemma node_create_visualization :
  nodes create_sql_workflow !! "create_visualization"
  = Some (λ state, create_visualization state None).
Proof. reflexivity. Qed.

Lemma node_handle_no_results :
  nodes create_sql_workflow !! "handle_no_results" = Some handle_no_results.
Proof. reflexivity. Qed.

Lemma node_write_query :
  nodes create_sql_workflow !! "write_query" = Some (λ state, write_query state None).
Proof. reflexivity. Qed.

Lemma successor_execute_query state v (b : bool) :
  successor create_sql_workflow "execute_query"
    (update state {[ "result" := v; "has_results" := VBool b ]})
  = let target := if b then "generate_answer" else "handle_no_results" in
    Ok (Some ([Routed "execute_query" target], target)).
Proof.
  unfold successor.
  change (assoc "execute_query" (branches create_sql_workflow))
    with (Some (should_continue_workflow,
                ({[ "generate_answer" := "generate_answer";
                    "handle_no_results" := "handle_no_results" ]}
                 : gmap string string))).
  cbv beta iota. rewrite route_after_execute_query. by destruct b.
Qed.

(** The run from [execute_query] on. *)
Lemma run_from_execute_query state l fuel :
  get_default_llm = Ok l →
  ∃ v (b : bool) a x c,
    execute_query state None = Ok {[ "result" := v; "has_results" := VBool b ]}
    ∧ events (run_from create_sql_workflow (S (S (S (S fuel)))) "execute_query" state)
      = Ran "execute_query" {[ "result" := v; "has_results" := VBool b ]}
        :: (if b
            then [Routed "execute_query" "generate_answer";
                  Ran "generate_answer" {[ "answer" := VStr a ]};
                  Ran "explain_answer" {[ "explanation" := VStr x ]};
                  Ran "create_visualization" {[ "dataviz_code" := VStr c ]}]
            else [Routed "execute_query" "handle_no_results";
                  Ran "handle_no_results" {[ "answer" := VStr no_results_answer ]}])
    ∧ result (run_from create_sql_workflow (S (S (S (S fuel)))) "execute_query" state)
      = Finished.
Proof.
  intros Hl.
  destruct (execute_query_returns state None) as (v & b & Hexec & _).
  rewrite (run_from_step _ _ "execute_query" _ _ _ ltac:(done) node_execute_query Hexec
             (channel_values_execute_query _ _)).
  rewrite successor_execute_query. cbv zeta beta iota.
  destruct b.
  - destruct (generate_answer_returns
                (update state {[ "result" := v; "has_results" := VBool true ]})
                None l Hl) as [a Ha].
    rewrite (run_from_step _ _ "generate_answer" _ _ _ ltac:(done) node_generate_answer Ha
               (channel_values_singleton "answer" _ eq_refl)).
    change (successor create_sql_workflow "generate_answer" ?s)
      with (Ok (E := exception) (Some ([] : list event, "explain_answer"))).
    cbv beta iota.
    match goal with |- context [run_from _ _ "explain_answer" ?s] =>
      destruct (explain_answer_returns s None l Hl) as [x Hx] end.
    rewrite (run_from_step _ _ "explain_answer" _ _ _ ltac:(done) node_explain_answer Hx
               (channel_values_singleton "explanation" _ eq_refl)).
    change (successor create_sql_workflow "explain_answer" ?s)
      with (Ok (E := exception) (Some ([] : list event, "create_visualization"))).
    cbv beta iota.
    match goal with |- context [run_from _ _ "create_visualization" ?s] =>
      destruct (create_visualization_returns s None l Hl) as [c Hc] end.
    rewrite (run_from_step _ _ "create_visualization" _ _ _ ltac:(done)
               node_create_visualization Hc
               (channel_values_singleton "dataviz_code" _ eq_refl)).
    change (successor create_sql_workflow "create_visualization" ?s)
      with (Ok (E := exception) (Some ([] : list event, END))).
    cbv beta iota. rewrite run_from_end.
    exists v, true, a, x, c. done.
  - rewrite (run_from_step _ _ "handle_no_results" _ _ _ ltac:(done) node_handle_no_results
               eq_refl (channel_values_singleton "answer" _ eq_refl)).
    change (successor create_sql_workflow "handle_no_results" ?s)
      with (Ok (E := exception) (Some ([] : list event, END))).
    cbv beta iota. rewrite run_from_end.
    exists v, false, [], [], []. done.
Qed.

End sql_workflow.

(** ** A turn of the orchestrator *)

Section turn.
Context `{Runtime}.

Lemma step_unfold stage call key s :
  step stage call key s
  = match call (self s) with
    | Raise e => (Raise e, s)
    | Ok result =>
        (propagate (getitem result key),
         {| self := {| self_llm := self_llm (self s); self_db := self_db (self s);
                       self_state := update (self_state (self s)) result |};
            figures := figures s;
            history := history s ++ [StateUpdate stage result] |})
    end.
Proof.
  unfold step, mbind, M_bind, lift, write_state, record. simpl.
  destruct (call (self s)); reflexivity.
Qed.

(** What [write_query] returns is an update of [query] alone. *)
Lemma write_query_shape state llm q :
  write_query state llm = Ok q → ∃ sq, q = {[ "query" := VStr sq ]}.
Proof.
  unfold write_query. destruct (llm_or_default llm) as [l|e]; simpl; [|done].
  destruct (getitem state "question"); simpl; [|done].
  destruct (getitem state "tables" ≫= join_lines); simpl; [|done].
  destruct (getitem state "schema"); simpl; [|done].
  match goal with |- context [l write_query_system_prompt ?v] =>
    destruct (l write_query_system_prompt v) end; simpl; [|done].
  intros [= <-]. by eexists.
Qed.

Lemma get_flag_after_execute_query state v b dflt :
  get (update state {[ "result" := v; "has_results" := VBool b ]}) "has_results" dflt
  = VBool b.
Proof.
  unfold get, update. rewrite (lookup_union_Some_l _ _ _ (VBool b)); [done|].
  rewrite lookup_insert_ne by done. apply lookup_singleton_eq.
Qed.

Lemma get_result_after_execute_query state v b dflt :
  get (update state {[ "result" := v; "has_results" := VBool b ]}) "result" dflt = v.
Proof.
  unfold get, update. rewrite (lookup_union_Some_l _ _ _ v); [done|].
  apply lookup_insert_eq.
Qed.

Lemma getitem_singleton key v : getitem {[ key := v ]} key = Ok v.
Proof. unfold getitem. by rewrite lookup_singleton_eq. Qed.

Lemma getitem_insert key v (d : gmap string PyVal) : getitem (<[key := v]> d) key = Ok v.
Proof. unfold getitem. by rewrite lookup_insert_eq. Qed.

(** Symbolic execution of a method body. *)
Ltac run_body :=
  repeat first
    [ rewrite step_unfold
    | rewrite get_flag_after_execute_query
    | rewrite get_result_after_execute_query
    | rewrite getitem_singleton
    | rewrite getitem_insert
    | progress cbn [truthy propagate py_len as_table negb
                    self self_state self_llm self_db figures history fst snd] ].

(** Lines 170-195 on a table and a chart source. *)
Lemma render_unfold df source s :
  render (VDataFrame df) (VStr source) s
  = (returned (render_outcome source df (figures s)).1,
     {| self := self s;
        figures := (render_outcome source df (figures s)).2;
        history :=
          history s
          ++ match sent (render_outcome source df (figures s)).1 with
             | Some m => [Send m]
             | None => []
             end |}).
Proof.
  unfold render, render_outcome, try_except, mbind, M_bind, lift, record.
  case_bool_decide; [done|].
  destruct (create_plot_figures _ _ _) as [[fs|e] p]; cbn [fst snd returned sent].
  - case_bool_decide; [done|].
    destruct (pyplot_elements fs) as [elements|e];
      cbn [propagate is_Exception fst snd returned sent]; done.
  - destruct (is_Exception e); cbn [fst snd returned sent]; [done|].
    by rewrite app_nil_r.
Qed.

(** A turn, stage by stage: what each stage was called on and returned,
    and the session the turn leaves. *)
Lemma turn_trace question s :
  let l := self_llm (self s) in
  let d := self_db (self s) in
  let st0 := fresh_state d question in
  (∃ e, write_query st0 (Some l) = Raise e
        ∧ run_chainlit_workflow question s
          = (Raise e, session_with s st0 (figures s) [StepUpdate GeneratingQuery]))
  ∨ (∃ sq v (b : bool),
        let q : gmap string PyVal := {[ "query" := VStr sq ]} in
        let r : gmap string PyVal := {[ "result" := v; "has_results" := VBool b ]} in
        let st1 := update st0 q in
        let st2 := update st1 r in
        let opening :=
          [ StepUpdate GeneratingQuery;
            StateUpdate "write_query" q;
            StepUpdate (QueryGenerated (VStr sq));
            StepUpdate ExecutingQuery;
            StateUpdate "execute_query" r ] in
        write_query st0 (Some l) = Ok q
        ∧ execute_query st1 (Some d) = Ok r
        ∧ if b
          then ∃ df a x c,
                 let st3 := update st2 {[ "answer" := VStr a ]} in
                 let st4 := update st3 {[ "explanation" := VStr x ]} in
                 let st5 := update st4 {[ "dataviz_code" := VStr c ]} in
                 let rendering := render_outcome c df (figures s) in
                 v = VDataFrame df
                 ∧ empty df = false
                 ∧ generate_answer st2 (Some l) = Ok {[ "answer" := VStr a ]}
                 ∧ explain_answer st3 (Some l) = Ok {[ "explanation" := VStr x ]}
                 ∧ create_visualization st4 (Some l)
                   = Ok {[ "dataviz_code" := VStr c ]}
                 ∧ run_chainlit_workflow question s
                   = (returned rendering.1,
                      session_with s st5 rendering.2
                        (opening ++ answer_path df a x c (sent rendering.1)))
          else run_chainlit_workflow question s
               = (Ok (),
                  session_with s
                    (update st2 {[ "answer" := VStr no_results_answer ]})
                    (figures s) (opening ++ no_results_path))).
Proof.
  cbv zeta.
  unfold run_chainlit_workflow, initialize_state, has_results, read_state,
    step_write_query, step_execute_query, step_generate_answer, step_explain_answer,
    step_create_visualization, step_handle_no_results.
  unfold mbind, mret, M_bind, M_ret, lift, write_state, record. run_body.
  fold (fresh_state (self_db (self s)) question).
  set (st0 := fresh_state (self_db (self s)) question).
  destruct (write_query st0 (Some (self_llm (self s)))) as [q|e] eqn:Hwq.
  2:{ left. exists e. split; [done|]. done. }
  right. destruct (write_query_shape _ _ _ Hwq) as [sq ->]. run_body.
  destruct (execute_query_returns (update st0 {[ "query" := VStr sq ]})
              (Some (self_db (self s)))) as (v & b & Hexec & Hb).
  rewrite Hexec. run_body. exists sq, v, b. split; [done|]. split; [done|].
  destruct b.
  - destruct (Hb eq_refl) as (df & -> & Hne). run_body. rewrite Hne. run_body.
    match goal with |- context [generate_answer ?st (Some ?l)] =>
      destruct (generate_answer_returns st (Some l) l eq_refl) as [a Ha] end.
    rewrite Ha. run_body.
    match goal with |- context [explain_answer ?st (Some ?l)] =>
      destruct (explain_answer_returns st (Some l) l eq_refl) as [x Hx] end.
    rewrite Hx. run_body.
    match goal with |- context [create_visualization ?st (Some ?l)] =>
      destruct (create_visualization_returns st (Some l) l eq_refl) as [c Hc] end.
    rewrite Hc. run_body.
    exists df, a, x, c. split; [done|]. split; [done|]. split; [done|].
    split; [done|]. split; [done|].
    rewrite render_unfold. run_body.
    unfold session_with, answer_path, answer_stages.
    by rewrite <- !app_assoc.
  - run_body. unfold handle_no_results. run_body.
    unfold session_with, no_results_path. cbn [fst snd]. by rewrite <- !app_assoc.
Qed.

(** Every turn is one of three: [write_query] raises and the turn ends
    there, or both first stages run and the turn goes along one of the two
    paths, chosen by the flag [execute_query] returned. *)
Lemma turn_outcomes question s :
  (∃ e, (run_chainlit_workflow question s).1 = Raise e
        ∧ history (run_chainlit_workflow question s).2
          = history s ++ [StepUpdate GeneratingQuery])
  ∨ (∃ sq v (b : bool) rest,
        history (run_chainlit_workflow question s).2
        = history s
          ++ [ StepUpdate GeneratingQuery;
               StateUpdate "write_query" {[ "query" := VStr sq ]};
               StepUpdate (QueryGenerated (VStr sq));
               StepUpdate ExecutingQuery;
               StateUpdate "execute_query"
                 {[ "result" := v; "has_results" := VBool b ]} ]
          ++ rest
        ∧ if b
          then ∃ df a x c m, v = VDataFrame df ∧ rest = answer_path df a x c m
          else rest = no_results_path).
Proof.
  destruct (turn_trace question s)
    as [(e & _ & ->)|(sq & v & b & _ & _ & Hrun)]; cbv zeta in *.
  - left. by exists e.
  - right. exists sq, v, b. destruct b.
    + destruct Hrun as (df & a & x & c & -> & _ & _ & _ & _ & ->).
      eexists. split; [reflexivity|]. exists df, a, x, c. eexists.
      split; reflexivity.
    + rewrite Hrun. eexists. split; [reflexivity|]. done.
Qed.

End turn.

(** ** The fork and the fields written *)

Section pipeline.
Context `{Runtime}.

(** A run starts at [write_query], on the channels of its input. *)
Lemma invoke_after_write_query state q :
  write_query state None = Ok q →
  invoke create_sql_workflow state
  = after [Ran "write_query" q]
          (run_from create_sql_workflow 24 "execute_query"
             (update (channel_values create_sql_workflow state) q)).
Proof.
  intros Hwq.
  rewrite <- (write_query_same_channels _ _ None (same_channels_input state)) in Hwq.
  destruct (write_query_shape _ _ _ Hwq) as [sq ->].
  unfold invoke. cbv zeta.
  change (entry_point create_sql_workflow) with (Some "write_query").
  change recursion_limit with (S 24). cbv beta iota.
  by rewrite (run_from_step _ _ "write_query" _ _ _ ltac:(done) node_write_query Hwq
                (channel_values_singleton "query" _ eq_refl)).
Qed.

Lemma invoke_write_query_raises state e :
  write_query state None = Raise e →
  invoke create_sql_workflow state
  = mkRun [] (channel_values create_sql_workflow state) (Raised e).
Proof.
  intros Hwq.
  rewrite <- (write_query_same_channels _ _ None (same_channels_input state)) in Hwq.
  unfold invoke. cbv zeta.
  change (entry_point create_sql_workflow) with (Some "write_query").
  change recursion_limit with (S 24). cbv beta iota.
  by rewrite (run_from_raise _ _ "write_query" _ _ _ ltac:(done) node_write_query Hwq).
Qed.

Lemma keys_of_singleton (key : string) (v : PyVal) :
  elements (dom ({[ key := v ]} : gmap string PyVal)) = [key].
Proof. by rewrite dom_singleton_L, elements_singleton. Qed.

Lemma keys_of_execute_query (v w : PyVal) :
  elements (dom ({[ "result" := v; "has_results" := w ]} : gmap string PyVal))
  = ["result"; "has_results"].
Proof. reflexivity. Qed.

(** The events of a whole run, once [write_query] has returned. *)
Lemma invoke_events state l q :
  get_default_llm = Ok l →
  write_query state None = Ok q →
  ∃ sq v (b : bool) a x c,
    q = {[ "query" := VStr sq ]}
    ∧ execute_query (update state q) None
      = Ok {[ "result" := v; "has_results" := VBool b ]}
    ∧ result (invoke create_sql_workflow state) = Finished
    ∧ events (invoke create_sql_workflow state)
      = Ran "write_query" {[ "query" := VStr sq ]}
        :: Ran "execute_query" {[ "result" := v; "has_results" := VBool b ]}
        :: (if b
            then [Routed "execute_query" "generate_answer";
                  Ran "generate_answer" {[ "answer" := VStr a ]};
                  Ran "explain_answer" {[ "explanation" := VStr x ]};
                  Ran "create_visualization" {[ "dataviz_code" := VStr c ]}]
            else [Routed "execute_query" "handle_no_results";
                  Ran "handle_no_results" {[ "answer" := VStr no_results_answer ]}]).
Proof.
  intros Hl Hwq. rewrite (invoke_after_write_query _ _ Hwq).
  destruct (write_query_shape _ _ _ Hwq) as [sq ->].
  destruct (run_from_execute_query
              (update (channel_values create_sql_workflow state)
                 {[ "query" := VStr sq ]}) l 20 Hl)
    as (v & b & a & x & c & Hexec & Hev & Hres).
  rewrite (execute_query_same_channels _ (update state {[ "query" := VStr sq ]}))
    in Hexec by apply same_channels_update, same_channels_input.
  exists sq, v, b, a, x, c. split; [reflexivity|]. split; [exact Hexec|].
  rewrite result_after, events_after, Hev, Hres. split; reflexivity.
Qed.

(** C4. Once [execute_query] has run, the flag it returned is consulted once
    and decides the rest: on [True] the run continues with
    [generate_answer], [explain_answer], [create_visualization] in that
    order and finishes; on [False] it continues with [handle_no_results]
    alone and finishes. The orchestrator's turn runs its stages the same
    way. *)
Theorem fork_on_has_results (state : gmap string PyVal) (l : LLM)
    (q : gmap string PyVal) :
  get_default_llm = Ok l →
  write_query state None = Ok q →
  (∃ v (b : bool),
     execute_query (update state q) None
     = Ok {[ "result" := v; "has_results" := VBool b ]}
     ∧ result (invoke create_sql_workflow state) = Finished
     ∧ routings (invoke create_sql_workflow state)
       = [("execute_query", if b then "generate_answer" else "handle_no_results")]
     ∧ nodes_run (invoke create_sql_workflow state)
       = "write_query" :: "execute_query"
         :: (if b then ["generate_answer"; "explain_answer"; "create_visualization"]
             else ["handle_no_results"]))
  ∧ (∀ question s, ∃ new,
       history (run_chainlit_workflow question s).2 = history s ++ new
       ∧ (stages_run new = []
          ∨ ∃ v (b : bool),
              StateUpdate "execute_query"
                {[ "result" := v; "has_results" := VBool b ]} ∈ new
              ∧ stages_run new
                = "write_query" :: "execute_query"
                  :: (if b
                      then ["generate_answer"; "explain_answer"; "create_visualization"]
                      else ["handle_no_results"]))).
Proof.
  intros Hl Hwq. split.
  - destruct (invoke_events state l q Hl Hwq)
      as (sq & v & b & a & x & c & -> & Hexec & Hres & Hev).
    exists v, b. split; [exact Hexec|]. split; [exact Hres|].
    unfold routings, nodes_run. rewrite Hev. destruct b; split; reflexivity.
  - intros question s.
    destruct (turn_outcomes question s)
      as [(e & _ & ->)|(sq & v & b & rest & -> & Hrest)].
    + eexists. split; [done|]. by left.
    + eexists. split; [done|]. right. exists v, b. split.
      * do 4 apply list_elem_of_further. apply list_elem_of_here.
      * destruct b; [destruct Hrest as (df & a & x & c & [m|] & _ & ->)|subst rest];
          reflexivity.
Qed.

(** C8. In one run no key is written twice: the keys the stages return, in
    the order they run, are all different, and [generate_answer] and
    [handle_no_results], which both write [answer], never run in the same
    run. This holds for the compiled graph and for the orchestrator's
    turn. *)
Theorem fields_written_once (state : gmap string PyVal) (question : pystr)
    (s : session) :
  (NoDup (keys_written (invoke create_sql_workflow state))
   ∧ ¬ ("generate_answer" ∈ nodes_run (invoke create_sql_workflow state)
        ∧ "handle_no_results" ∈ nodes_run (invoke create_sql_workflow state)))
  ∧ (∃ new,
       history (run_chainlit_workflow question s).2 = history s ++ new
       ∧ NoDup (fields_written new)
       ∧ ¬ ("generate_answer" ∈ stages_run new
            ∧ "handle_no_results" ∈ stages_run new)).
Proof.
  split.
  - destruct (write_query state None) as [q|e] eqn:Hwq.
    + assert (∃ l, get_default_llm = Ok l) as [l Hl].
      { unfold write_query, llm_or_default in Hwq.
        destruct get_default_llm; [by eexists|done]. }
      destruct (invoke_events state l q Hl Hwq)
        as (sq & v & b & a & x & c & -> & _ & _ & Hev).
      unfold keys_written, nodes_run. rewrite Hev.
      clear Hev.
      destruct b; simpl; rewrite ?keys_of_singleton, keys_of_execute_query; simpl;
        apply (bool_decide_unpack _); by vm_compute.
    + rewrite (invoke_write_query_raises _ _ Hwq). split; [constructor|].
      intros [Hga _]. by apply elem_of_nil in Hga.
  - destruct (turn_outcomes question s)
      as [(e & _ & ->)|(sq & v & b & rest & -> & Hrest)].
    + eexists. split; [done|]. split; [constructor|].
      intros [Hga _]. by apply elem_of_nil in Hga.
    + eexists. split; [done|].
      destruct b; [destruct Hrest as (df & a & x & c & [m|] & _ & ->)|subst rest];
        unfold fields_written, stages_run; simpl;
        rewrite ?keys_of_singleton, keys_of_execute_query; simpl;
        apply (bool_decide_unpack _); by vm_compute.
Qed.

End pipeline.

Lemma fork_on_has_results_witness :
  (∃ v (b : bool),
     execute_query (H := Examples.test_runtime)
       (update Examples.test_state Examples.generated_query) None
     = Ok {[ "result" := v; "has_results" := VBool b ]}
     ∧ result (invoke (create_sql_workflow (H := Examples.test_runtime))
                 Examples.test_state) = Finished
     ∧ routings (invoke (create_sql_workflow (H := Examples.test_runtime))
                   Examples.test_state)
       = [("execute_query", if b then "generate_answer" else "handle_no_results")]
     ∧ nodes_run (invoke (create_sql_workflow (H := Examples.test_runtime))
                    Examples.test_state)
       = "write_query" :: "execute_query"
         :: (if b then ["generate_answer"; "explain_answer"; "create_visualization"]
             else ["handle_no_results"])).
Proof.
  apply (proj1 (fork_on_has_results (H := Examples.test_runtime) Examples.test_state
                  Examples.fencing_llm Examples.generated_query eq_refl eq_refl)).
Defined.

(** ** The chart renderer *)

Lemma elem_of_get_fignums p num : num ∈ get_fignums p ↔ is_Some (Gcf p !! num).
Proof.
  unfold get_fignums. rewrite merge_sort_Permutation, elem_of_elements.
  apply elem_of_dom.
Qed.

Lemma figures_numbered_open nums p :
  (∀ num, num ∈ nums → is_Some (Gcf p !! num)) →
  figures_numbered nums p = (omap (λ num, Gcf p !! num) nums, p).
Proof.
  induction nums as [|num nums IH]; intros Hopen; [done|].
  destruct (Hopen num) as [fig Hfig]; [apply list_elem_of_here|].
  cbn [figures_numbered omap list_omap]. unfold plt_figure, default. cbn [from_option id].
  rewrite Hfig. cbv beta iota. rewrite IH; [done|].
  intros num' Hnum'. by apply Hopen, list_elem_of_further.
Qed.

Lemma is_open_close fig fig' p :
  is_open fig (plt_close fig' p) ↔ is_open fig p ∧ fig ≠ fig'.
Proof.
  unfold is_open, plt_close. cbn [Gcf]. split.
  - intros [num Hnum]. apply map_lookup_filter_Some in Hnum as [Hnum Hne].
    split; [by exists num|done].
  - intros [[num Hnum] Hne]. exists num. by apply map_lookup_filter_Some.
Qed.

Lemma is_open_close_each fig closed p :
  is_open fig (foldl (λ p fig', plt_close fig' p) p closed)
  ↔ is_open fig p ∧ fig ∉ closed.
Proof.
  revert p. induction closed as [|fig' closed IH]; intros p; cbn [foldl].
  - rewrite elem_of_nil. tauto.
  - rewrite IH, is_open_close, not_elem_of_cons. tauto.
Qed.

Lemma figures_are_hashable (current_figures : list figure) :
  forallb hashable (Fig <$> current_figures) = true.
Proof. by induction current_figures. Qed.

(** The renderer on a registry without open figures, when the chart code
    completes: with hashable items only it returns one of each and closes
    every figure; an item that cannot be hashed makes it return [[]] and
    leave the registry as the chart code left it. *)
Lemma create_plot_figures_from_empty_registry code df p g :
  Gcf p = ∅ →
  code df {| figs := []; plt := p |} = (None, g) →
  if forallb hashable (figs g)
  then ∃ all_figs,
         (create_plot_figures code df p).1 = Ok all_figs
         ∧ NoDup all_figs
         ∧ (∀ i, i ∈ all_figs
                 ↔ i ∈ figs g ∨ ∃ fig, i = Fig fig ∧ is_open fig (plt g))
         ∧ (∀ fig, ¬ is_open fig (create_plot_figures code df p).2)
  else create_plot_figures code df p = (Ok [], plt g).
Proof.
  intros Hempty Hexec. unfold create_plot_figures.
  assert (get_fignums p = []) as ->.
  { unfold get_fignums. by rewrite Hempty, dom_empty_L, elements_empty. }
  rewrite Hexec. cbn [length].
  rewrite figures_numbered_open
    by (intros num [_ Hnum]%list_elem_of_filter; by apply elem_of_get_fignums).
  unfold list_set. rewrite forallb_app, figures_are_hashable, andb_true_r.
  destruct (forallb hashable (figs g)); [|done].
  cbn [fst snd]. eexists. split; [reflexivity|].
  assert (∀ fig, fig ∈ omap (λ num, Gcf (plt g) !! num)
                         (filter (λ fignum, 0 ≤ fignum) (get_fignums (plt g)))
                 ↔ is_open fig (plt g)) as Hcurrent.
  { intros fig. rewrite list_elem_of_omap. split.
    - intros (num & _ & Hnum). by exists num.
    - intros [num Hnum]. exists num. split; [|done].
      apply list_elem_of_filter. split; [lia|].
      apply elem_of_get_fignums. by eexists. }
  split; [apply NoDup_elements|]. split.
  - intros i. rewrite elem_of_elements, elem_of_list_to_set, elem_of_app,
      list_elem_of_fmap.
    split; (intros [Hi|(fig & -> & Hfig)]; [by left|right; exists fig]);
      (split; [done|]); by apply Hcurrent.
  - intros fig. rewrite is_open_close_each, Hcurrent. tauto.
Qed.

(** ** Where the code departs from the specification *)

(** C1. When the model call fails, [write_query] does not return the
    error string: it raises an exception that carries it. The orchestrator's
    turn and the compiled graph both end there, before [execute_query]. *)
Theorem write_query_raises_on_model_failure :
  write_query (H := Examples.test_runtime) Examples.test_state
    (Some Examples.failing_llm)
  = Raise (ExceptionDict
      {[ "query" := VStr (py "-- Error generating query: quota exceeded") ]})
  ∧ (let turn := run_chainlit_workflow (H := Examples.test_runtime)
                   (py "Test question")
                   (Examples.new_session Examples.failing_llm
                      (Examples.db_returning Examples.count_table)) in
     turn.1 = Raise (ExceptionDict
                {[ "query" := VStr (py "-- Error generating query: quota exceeded") ]})
     ∧ stages_run (history turn.2) = [])
  ∧ (let r := invoke (create_sql_workflow (H := Examples.failing_runtime))
                Examples.test_state in
     result r = Raised (ExceptionDict
                  {[ "query" := VStr (py "-- Error generating query: quota exceeded") ]})
     ∧ nodes_run r = []).
Proof. split; [|split]; by vm_compute. Qed.

(** C9. A turn whose chart code opens two figures and then fails leaves
    them open: the [except] branch closes nothing. In the next turn the
    count of open figures is 2; chart code that clears pyplot and draws one
    figure gets figure number 1, which the filter [fignum >= 2] passes
    over. If the code appended the figure, it is returned still open; if
    not, it is not returned at all and stays open. *)
Theorem renderer_passes_over_figure_after_failed_turn :
  let failed :=
    create_plot_figures Examples.chart_two_then_raise Examples.count_table
      fresh_pyplot in
  let appended :=
    create_plot_figures Examples.chart_reset_and_append Examples.count_table
      failed.2 in
  let unappended :=
    create_plot_figures Examples.chart_reset_no_append Examples.count_table
      failed.2 in
  (failed.1 = Ok [] ∧ get_fignums failed.2 = [1; 2])
  ∧ (appended.1 = Ok [Fig 2] ∧ get_fignums appended.2 = [1] ∧ is_open 2 appended.2)
  ∧ (unappended.1 = Ok [] ∧ get_fignums unappended.2 = [1]
     ∧ is_open 2 unappended.2).
Proof.
  cbv zeta. repeat split; try (by vm_compute); by exists 1.
Qed.

(** * Further properties of the code *)

Import BigQuery.

(** ** [execute_query] *)

Section execute_query_more.
Context `{Runtime}.

(** The kind of result [execute_query] returns goes with its flag. *)
Lemma execute_query_kind (state : gmap string PyVal)
    (db : option Database) :
  ∃ v (b : bool),
    execute_query state db = Ok {[ "result" := v; "has_results" := VBool b ]}
    ∧ if b
      then ∃ df, v = VDataFrame df ∧ 1 ≤ df_len df ∧ columns df ≠ []
                 ∧ ¬ entirely_null df
      else ∃ text, v = VStr text.
Proof.
  unfold execute_query.
  destruct (getitem state "query") as [query|e]; simpl.
  - destruct (run_query _ query) as [df|e]; simpl.
    + destruct (negb (empty df) && (0 <? df_len df) && negb (isnull_all_all df))
        eqn:Hfound.
      * exists (VDataFrame df), true. split; [done|]. exists df.
        apply andb_true_iff in Hfound as [[Hne Hlen]%andb_true_iff Hnull].
        apply negb_true_iff in Hne, Hnull. apply Nat.ltb_lt in Hlen.
        split; [done|]. split; [lia|]. split.
        -- unfold empty in Hne. apply orb_false_iff in Hne as [_ Hcols].
           intros Hnil. by rewrite Hnil in Hcols.
        -- rewrite <- isnull_all_all_spec. by rewrite Hnull.
      * exists (VStr (py "Nenhum resultado encontrado.")), false. eauto.
    + do 2 eexists. split; [done|]. by eexists.
  - do 2 eexists. split; [done|]. by eexists.
Qed.

(** X1. Whatever the state and the warehouse, [execute_query] returns both
    keys, and the flag tells the kind of the result: [True] comes with a
    table that has a row, a column and a value that is not null, [False]
    with a text. *)
Theorem execute_query_flag_iff_table (state : gmap string PyVal)
    (db : option Database) :
  ∃ v (b : bool),
    execute_query state db = Ok {[ "result" := v; "has_results" := VBool b ]}
    ∧ if b
      then ∃ df, v = VDataFrame df ∧ 1 ≤ df_len df ∧ columns df ≠ []
                 ∧ ¬ entirely_null df
      else ∃ text, v = VStr text.
Proof. apply execute_query_kind. Qed.

(** X2. A state without a [query] key is answered like a failed execution:
    the lookup fails inside the [try], so whatever the warehouse is, the
    result is the execution-error text naming the key. *)
Theorem execute_query_missing_query (state : gmap string PyVal)
    (db : option Database) :
  state !! "query" = None →
  execute_query state db
  = Ok {[ "result" := VStr (py "Error executing query: 'query'");
          "has_results" := VBool false ]}.
Proof. intros Hq. unfold execute_query, getitem. by rewrite Hq. Qed.

End execute_query_more.

Lemma execute_query_missing_query_witness :
  execute_query (H := Examples.test_runtime) Scenarios.queryless_state
    (Some Examples.db_raising)
  = Ok {[ "result" := VStr (py "Error executing query: 'query'");
          "has_results" := VBool false ]}.
Proof.
  apply (execute_query_missing_query (H := Examples.test_runtime)
           Scenarios.queryless_state (Some Examples.db_raising) eq_refl).
Defined.

Lemma getitem_Some (d : gmap string PyVal) key v : d !! key = Some v → getitem d key = Ok v.
Proof. intros Hv. unfold getitem. by rewrite Hv. Qed.

Lemma getitem_None (d : gmap string PyVal) key :
  d !! key = None → getitem d key = Raise (KeyError key).
Proof. intros Hv. unfold getitem. by rewrite Hv. Qed.

(** ** The model stages *)

Section model_stages_more.
Context `{Runtime}.

(** X3. Called with a model handle, [generate_answer], [explain_answer] and
    [create_visualization] never raise: whatever the state holds and
    whatever the model does, each returns an update of its own key alone,
    holding a text. *)
Theorem model_stages_never_raise (state : gmap string PyVal) (l : LLM) :
  (∃ a, generate_answer state (Some l) = Ok {[ "answer" := VStr a ]})
  ∧ (∃ x, explain_answer state (Some l) = Ok {[ "explanation" := VStr x ]})
  ∧ (∃ c, create_visualization state (Some l) = Ok {[ "dataviz_code" := VStr c ]}).
Proof.
  split; [|split].
  - by apply generate_answer_returns with l.
  - by apply explain_answer_returns with l.
  - by apply create_visualization_returns with l.
Qed.

(** X4. Without a model handle and without [GOOGLE_API_KEY] (unset or
    empty), every model stage raises the [ValueError] of [get_default_llm]:
    the default is resolved before the [try]. A run of the compiled graph
    then ends with that error before any node has returned. *)
Theorem model_stages_need_api_key (state : gmap string PyVal) :
  GOOGLE_API_KEY = None ∨ GOOGLE_API_KEY = Some [] →
  let e := Builtin (ValueError (py "GOOGLE_API_KEY environment variable is required")) in
  write_query state None = Raise e
  ∧ generate_answer state None = Raise e
  ∧ explain_answer state None = Raise e
  ∧ create_visualization state None = Raise e
  ∧ invoke create_sql_workflow state
    = mkRun [] (channel_values create_sql_workflow state) (Raised e).
Proof.
  intros Hkey.
  assert (get_default_llm
          = Raise (ValueError (py "GOOGLE_API_KEY environment variable is required")))
    as Hdefault.
  { unfold get_default_llm. by destruct Hkey as [-> | ->]. }
  assert (write_query state None
          = Raise (Builtin (ValueError
                     (py "GOOGLE_API_KEY environment variable is required")))) as Hwq.
  { unfold write_query, llm_or_default. by rewrite Hdefault. }
  cbv zeta. split; [exact Hwq|].
  split; [unfold generate_answer, llm_or_default; by rewrite Hdefault|].
  split; [unfold explain_answer, llm_or_default; by rewrite Hdefault|].
  split; [unfold create_visualization, llm_or_default; by rewrite Hdefault|].
  by apply invoke_write_query_raises.
Qed.

(** What the fence stripping of [write_query] returns is stripped and
    does not start with a fence. *)
Lemma strip_sql_fence_clean text :
  strip (strip_sql_fence text) = strip_sql_fence text
  ∧ startswith (py "```sql") (strip_sql_fence text) = false.
Proof.
  unfold strip_sql_fence.
  change (py "```sql") with (py "```" ++ py "sql").
  destruct (startswith (py "```" ++ py "sql") (strip text)) eqn:Hfence.
  - apply (unfenced_is_unwrapped (py "sql") (strip text)).
  - by rewrite strip_idemp.
Qed.

Lemma strip_python_fence_clean text :
  strip (strip_python_fence text) = strip_python_fence text
  ∧ startswith (py "```python") (strip_python_fence text) = false.
Proof.
  unfold strip_python_fence.
  change (py "```python") with (py "```" ++ py "python").
  destruct (startswith (py "```" ++ py "python") (strip text)) eqn:Hfence.
  - destruct (unfenced_is_unwrapped (py "python") (strip text)) as [Hs Hf].
    by rewrite !Hs.
  - by rewrite !strip_idemp.
Qed.

(** X5. Whenever [write_query] returns, it returns the [query] key alone,
    and the query has no whitespace at either end and does not start with
    a [```sql] fence. *)
Theorem write_query_returns_clean_query (state : gmap string PyVal)
    (llm : option LLM) (u : gmap string PyVal) :
  write_query state llm = Ok u →
  ∃ query, u = {[ "query" := VStr query ]}
           ∧ strip query = query
           ∧ startswith (py "```sql") query = false.
Proof.
  unfold write_query. destruct (llm_or_default llm) as [l|e]; simpl; [|done].
  destruct (getitem state "question"); simpl; [|done].
  destruct (getitem state "tables" ≫= join_lines); simpl; [|done].
  destruct (getitem state "schema"); simpl; [|done].
  match goal with |- context [l write_query_system_prompt ?v] =>
    destruct (l write_query_system_prompt v) as [text|] end; simpl; [|done].
  intros [= <-]. exists (strip_sql_fence text). split; [done|].
  apply strip_sql_fence_clean.
Qed.

(** X6. With a model handle, the only exception [write_query] raises is the
    one it builds itself: an [Exception] around a dict whose [query] is
    "-- Error generating query: " followed by the text of what failed
    inside the [try] (the model call, or a missing key). *)
Theorem write_query_raises_only_its_dict (state : gmap string PyVal) (l : LLM)
    (e : exception) :
  write_query state (Some l) = Raise e →
  ∃ cause : error,
    e = ExceptionDict
          {[ "query" := VStr (py "-- Error generating query: " ++ str_error cause) ]}
    ∧ (state !! "question" = None → cause = KeyError "question").
Proof.
  unfold write_query. cbn -[py str_error strip_sql_fence getitem].
  destruct (state !! "question") as [question|] eqn:Hq.
  2:{ rewrite (getitem_None _ _ Hq). cbn -[py str_error].
      intros [= <-]. by exists (KeyError "question"). }
  rewrite (getitem_Some _ _ _ Hq). cbn -[py str_error strip_sql_fence getitem].
  destruct (getitem state "tables") as [tables|cause];
    cbn -[py str_error strip_sql_fence getitem]; [|intros [= <-]; by exists cause].
  destruct (join_lines tables) as [lines|cause];
    cbn -[py str_error strip_sql_fence getitem]; [|intros [= <-]; by exists cause].
  destruct (getitem state "schema") as [schema|cause];
    cbn -[py str_error strip_sql_fence getitem]; [|intros [= <-]; by exists cause].
  match goal with |- context [l write_query_system_prompt ?v] =>
    destruct (l write_query_system_prompt v) as [text|cause] end;
    cbn -[py str_error strip_sql_fence getitem]; [done|].
  intros [= <-]. by exists cause.
Qed.

(** X7. When the result is not a table, [create_visualization] calls no
    model: whatever the handle, it returns the comment
    "# Error: '<type>' object has no attribute 'empty'". *)
Theorem create_visualization_needs_table (state : gmap string PyVal) (l : LLM)
    (v : PyVal) :
  state !! "result" = Some v →
  (∀ df, v ≠ VDataFrame df) →
  create_visualization state (Some l)
  = Ok {[ "dataviz_code" :=
            VStr (py "# Error: '" ++ type_name v
                  ++ py "' object has no attribute 'empty'") ]}.
Proof.
  intros Hres Hnot. unfold create_visualization, getitem. simpl. rewrite Hres. simpl.
  destruct v; try done. by destruct (Hnot df).
Qed.

(** X8. The chart source [create_visualization] returns is either its own
    error comment or a text without whitespace at either end that does not
    start with a [```python] fence. *)
Theorem create_visualization_returns_clean_code (state : gmap string PyVal)
    (l : LLM) :
  ∃ code, create_visualization state (Some l) = Ok {[ "dataviz_code" := VStr code ]}
          ∧ ((∃ cause, code = py "# Error: " ++ str_error cause)
             ∨ (strip code = code ∧ startswith (py "```python") code = false)).
Proof.
  unfold create_visualization. simpl.
  destruct (getitem state "result") as [result|e]; simpl; [|by eauto].
  destruct (as_table result "empty") as [df|e]; simpl; [|by eauto].
  destruct (negb (empty df)); simpl;
    (destruct (getitem state "question"); simpl; [|by eauto]);
    (destruct (getitem state "query"); simpl; [|by eauto]);
    match goal with |- context [l dataviz_system_prompt ?v] =>
      destruct (l dataviz_system_prompt v) as [text|] end; simpl; try by eauto.
  all: eexists; split; [done|]; right; apply strip_python_fence_clean.
Qed.

End model_stages_more.

Section graph_trace.
Context `{Runtime}.

Lemma successor_plain_edges state :
  successor create_sql_workflow "write_query" state = Ok (Some ([], "execute_query"))
  ∧ successor create_sql_workflow "generate_answer" state
    = Ok (Some ([], "explain_answer"))
  ∧ successor create_sql_workflow "explain_answer" state
    = Ok (Some ([], "create_visualization"))
  ∧ successor create_sql_workflow "create_visualization" state = Ok (Some ([], END))
  ∧ successor create_sql_workflow "handle_no_results" state = Ok (Some ([], END)).
Proof. repeat split; reflexivity. Qed.

(** A node called without a handle behaves as with the default one. *)
Lemma default_handle state l :
  get_default_llm = Ok l →
  write_query state None = write_query state (Some l)
  ∧ generate_answer state None = generate_answer state (Some l)
  ∧ explain_answer state None = explain_answer state (Some l)
  ∧ create_visualization state None = create_visualization state (Some l).
Proof.
  intros Hl.
  unfold write_query, generate_answer, explain_answer, create_visualization,
    llm_or_default.
  by rewrite Hl.
Qed.

(** The run of the graph along the answer path. *)
Lemma graph_run_answer_path input l sq df a x c :
  let q : gmap string PyVal := {[ "query" := VStr sq ]} in
  let r : gmap string PyVal :=
    {[ "result" := VDataFrame df; "has_results" := VBool true ]} in
  let st := channel_values create_sql_workflow input in
  let st1 := update st q in
  let st2 := update st1 r in
  let st3 := update st2 {[ "answer" := VStr a ]} in
  let st4 := update st3 {[ "explanation" := VStr x ]} in
  let st5 := update st4 {[ "dataviz_code" := VStr c ]} in
  get_default_llm = Ok l →
  write_query st (Some l) = Ok q →
  execute_query st1 (Some get_default_db) = Ok r →
  generate_answer st2 (Some l) = Ok {[ "answer" := VStr a ]} →
  explain_answer st3 (Some l) = Ok {[ "explanation" := VStr x ]} →
  create_visualization st4 (Some l) = Ok {[ "dataviz_code" := VStr c ]} →
  invoke create_sql_workflow input
  = mkRun [ Ran "write_query" q;
            Ran "execute_query" r;
            Routed "execute_query" "generate_answer";
            Ran "generate_answer" {[ "answer" := VStr a ]};
            Ran "explain_answer" {[ "explanation" := VStr x ]};
            Ran "create_visualization" {[ "dataviz_code" := VStr c ]} ]
          st5 Finished.
Proof.
  cbv zeta. intros Hl Hwq Hexec Hga Hea Hcv.
  rewrite <- (proj1 (default_handle _ l Hl)) in Hwq.
  rewrite (write_query_same_channels _ _ None (same_channels_input input)) in Hwq.
  rewrite <- (proj1 (proj2 (default_handle _ l Hl))) in Hga.
  rewrite <- (proj1 (proj2 (proj2 (default_handle _ l Hl)))) in Hea.
  rewrite <- (proj2 (proj2 (proj2 (default_handle _ l Hl)))) in Hcv.
  rewrite (invoke_after_write_query _ _ Hwq).
  rewrite (run_from_step _ _ "execute_query" _ _ _ ltac:(done) node_execute_query Hexec
             (channel_values_execute_query _ _)).
  rewrite successor_execute_query. cbv zeta beta iota.
  rewrite (run_from_step _ _ "generate_answer" _ _ _ ltac:(done) node_generate_answer Hga
             (channel_values_singleton "answer" _ eq_refl)).
  rewrite (proj1 (proj2 (successor_plain_edges _))). cbv beta iota.
  rewrite (run_from_step _ _ "explain_answer" _ _ _ ltac:(done) node_explain_answer Hea
             (channel_values_singleton "explanation" _ eq_refl)).
  rewrite (proj1 (proj2 (proj2 (successor_plain_edges _)))). cbv beta iota.
  rewrite (run_from_step _ _ "create_visualization" _ _ _ ltac:(done)
             node_create_visualization Hcv
             (channel_values_singleton "dataviz_code" _ eq_refl)).
  rewrite (proj1 (proj2 (proj2 (proj2 (successor_plain_edges _))))). cbv beta iota.
  rewrite run_from_end. reflexivity.
Qed.

(** The run of the graph along the no-results path. *)
Lemma graph_run_no_results_path input l sq v :
  let q : gmap string PyVal := {[ "query" := VStr sq ]} in
  let r : gmap string PyVal := {[ "result" := v; "has_results" := VBool false ]} in
  let st := channel_values create_sql_workflow input in
  let st1 := update st q in
  let st2 := update st1 r in
  get_default_llm = Ok l →
  write_query st (Some l) = Ok q →
  execute_query st1 (Some get_default_db) = Ok r →
  invoke create_sql_workflow input
  = mkRun [ Ran "write_query" q;
            Ran "execute_query" r;
            Routed "execute_query" "handle_no_results";
            Ran "handle_no_results" {[ "answer" := VStr no_results_answer ]} ]
          (update st2 {[ "answer" := VStr no_results_answer ]}) Finished.
Proof.
  cbv zeta. intros Hl Hwq Hexec.
  rewrite <- (proj1 (default_handle _ l Hl)) in Hwq.
  rewrite (write_query_same_channels _ _ None (same_channels_input input)) in Hwq.
  rewrite (invoke_after_write_query _ _ Hwq).
  rewrite (run_from_step _ _ "execute_query" _ _ _ ltac:(done) node_execute_query Hexec
             (channel_values_execute_query _ _)).
  rewrite successor_execute_query. cbv zeta beta iota.
  rewrite (run_from_step _ _ "handle_no_results" _ _ _ ltac:(done)
             node_handle_no_results eq_refl
             (channel_values_singleton "answer" _ eq_refl)).
  rewrite (proj2 (proj2 (proj2 (proj2 (successor_plain_edges _))))). cbv beta iota.
  rewrite run_from_end. reflexivity.
Qed.

End graph_trace.

(** ** Turns of the orchestrator *)

Section turns_more.
Context `{Runtime}.

(** With or without a handle, what [write_query] raises is an
    [Exception]. *)
Lemma write_query_raises_Exception state llm e :
  write_query state llm = Raise e → is_Exception e = true.
Proof.
  unfold write_query. destruct (llm_or_default llm) as [l|cause]; simpl;
    [|by intros [= <-]].
  destruct (getitem state "question"); simpl; [|by intros [= <-]].
  destruct (getitem state "tables" ≫= join_lines); simpl; [|by intros [= <-]].
  destruct (getitem state "schema"); simpl; [|by intros [= <-]].
  match goal with |- context [l write_query_system_prompt ?v] =>
    destruct (l write_query_system_prompt v) end; simpl; [done|by intros [= <-]].
Qed.

(** What leaves [create_plot_figures] is what the chart code raised, and
    no [Exception]. *)
Lemma create_plot_figures_raises code df p e :
  (create_plot_figures code df p).1 = Raise e →
  is_Exception e = false ∧ (code df {| figs := []; plt := p |}).1 = Some e.
Proof.
  unfold create_plot_figures. destruct (code df _) as [[e'|] g]; cbn [fst].
  - destruct (is_Exception e') eqn:He; cbn [fst]; [done|]. by intros [= <-].
  - destruct (figures_numbered _ _) as [current p']. by destruct (list_set _).
Qed.

(** The elements are built when every item is a figure; the first item
    that is none stops the loop with the [TypeError] of [cl.Pyplot]. *)
Lemma pyplot_elements_outcome figs :
  match pyplot_elements figs with
  | Ok elements => figs = Fig <$> elements
  | Raise e =>
      e = TypeError (py "figure must be a matplotlib.figure.Figure")
      ∧ ∃ i, i ∈ figs ∧ ∀ fig, i ≠ Fig fig
  end.
Proof.
  induction figs as [|i figs IH]; [done|]. cbn [pyplot_elements].
  destruct i as [fig|id|id]; cbn -[py].
  - destruct (pyplot_elements figs) as [elements|e]; cbn -[py].
    + by rewrite IH.
    + destruct IH as (-> & i & Hi & Hfig). split; [done|].
      exists i. split; [by apply list_elem_of_further|done].
  - split; [done|]. exists (Hashable id). split; [apply list_elem_of_here|done].
  - split; [done|]. exists (Unhashable id). split; [apply list_elem_of_here|done].
Qed.

(** How lines 170-195 end. *)
Lemma render_outcome_cases source df p :
  match (render_outcome source df p).1 with
  | Ok m =>
      m = EmptyCodeMessage ∨ m = NoFigureMessage
      ∨ (∃ elements, elements ≠ [] ∧ m = FiguresMessage elements)
      ∨ m = VisualizationErrorMessage
              (Builtin (TypeError (py "figure must be a matplotlib.figure.Figure")))
  | Raise e =>
      is_Exception e = false
      ∧ (exec_code source df {| figs := []; plt := p |}).1 = Some e
  end.
Proof.
  unfold render_outcome. case_bool_decide; [by left|].
  destruct (create_plot_figures _ _ _) as [[fs|e] p'] eqn:Hfigs; cbn [fst].
  - case_bool_decide as Hnone; [right; by left|].
    pose proof (pyplot_elements_outcome fs) as Hfs.
    destruct (pyplot_elements fs) as [elements|e].
    + right. right. left. exists elements. split; [|done].
      intros ->. by destruct Hnone.
    + right. right. right. by destruct Hfs as [-> _].
  - destruct (create_plot_figures_raises (exec_code source) df p e) as [He Hexec];
      [by rewrite Hfigs|].
    by rewrite He.
Qed.



(** X11. A turn starts from a fresh state: what the orchestrator's state
    held before (the previous question's fields) has no effect on what the
    turn returns, sends, or leaves behind. *)
Theorem turn_ignores_previous_state (question : pystr) (s : session)
    (previous : gmap string PyVal) :
  run_chainlit_workflow question
    {| self := {| self_llm := self_llm (self s); self_db := self_db (self s);
                  self_state := previous |};
       figures := figures s; history := history s |}
  = run_chainlit_workflow question s.
Proof.
  unfold run_chainlit_workflow. unfold mbind at 1 3. unfold M_bind.
  reflexivity.
Qed.

(** Merging updates that leave a key out leaves its value as it was. *)
Lemma update_other (state u : gmap string PyVal) key :
  u !! key = None → update state u !! key = state !! key.
Proof. intros Hu. unfold update. by rewrite lookup_union_r. Qed.

(** X12. A turn changes nothing but the six stage fields: in the state it
    leaves, every other key (the question, the tables, the schema) holds
    what [initialize_state] put there. *)
Theorem turn_keeps_inputs (question : pystr) (s : session) (key : string) :
  key ∉ stage_fields →
  self_state (self (run_chainlit_workflow question s).2) !! key
  = fresh_state (self_db (self s)) question !! key.
Proof.
  intros Hkey. unfold stage_fields in Hkey.
  repeat (apply not_elem_of_cons in Hkey as [? Hkey]).
  destruct (turn_trace question s)
    as [(e & _ & ->)|(sq & v & b & _ & _ & Hrun)]; cbv zeta in *; [done|].
  destruct b.
  - destruct Hrun as (df & a & x & c & -> & _ & _ & _ & _ & ->).
    cbn [snd session_with self self_state].
    rewrite !update_other; [done|..];
      rewrite ?lookup_insert_ne by done; by apply lookup_singleton_ne.
  - rewrite Hrun. cbn [snd session_with self self_state].
    rewrite !update_other; [done|..];
      rewrite ?lookup_insert_ne by done; by apply lookup_singleton_ne.
Qed.

End turns_more.

(** ** Runs of the compiled graph *)

Section graph_more.
Context `{Runtime}.


(** Every run of the graph, stage by stage, from the channels [st] of its
    input. *)
Lemma graph_trace input :
  let st := channel_values create_sql_workflow input in
  (∃ e, write_query input None = Raise e
        ∧ invoke create_sql_workflow input = mkRun [] st (Raised e))
  ∨ (∃ l sq v (b : bool),
        let q : gmap string PyVal := {[ "query" := VStr sq ]} in
        let r : gmap string PyVal := {[ "result" := v; "has_results" := VBool b ]} in
        let st2 := update (update st q) r in
        get_default_llm = Ok l
        ∧ if b
          then ∃ df a x c,
                 v = VDataFrame df
                 ∧ invoke create_sql_workflow input
                   = mkRun [ Ran "write_query" q;
                             Ran "execute_query" r;
                             Routed "execute_query" "generate_answer";
                             Ran "generate_answer" {[ "answer" := VStr a ]};
                             Ran "explain_answer" {[ "explanation" := VStr x ]};
                             Ran "create_visualization"
                               {[ "dataviz_code" := VStr c ]} ]
                       (update (update (update st2 {[ "answer" := VStr a ]})
                                  {[ "explanation" := VStr x ]})
                          {[ "dataviz_code" := VStr c ]})
                       Finished
          else invoke create_sql_workflow input
               = mkRun [ Ran "write_query" q;
                         Ran "execute_query" r;
                         Routed "execute_query" "handle_no_results";
                         Ran "handle_no_results"
                           {[ "answer" := VStr no_results_answer ]} ]
                   (update st2 {[ "answer" := VStr no_results_answer ]})
                   Finished).
Proof.
  cbv zeta. set (st := channel_values create_sql_workflow input).
  destruct (write_query input None) as [q|e] eqn:Hwq.
  2:{ left. exists e. split; [done|]. by apply invoke_write_query_raises. }
  right.
  assert (∃ l, get_default_llm = Ok l) as [l Hl].
  { unfold write_query, llm_or_default in Hwq.
    destruct get_default_llm; [by eexists|done]. }
  destruct (write_query_shape _ _ _ Hwq) as [sq ->].
  rewrite (proj1 (default_handle _ l Hl)) in Hwq.
  rewrite <- (write_query_same_channels _ _ (Some l) (same_channels_input input))
    in Hwq.
  fold st in Hwq.
  destruct (execute_query_returns (update st {[ "query" := VStr sq ]})
              (Some get_default_db)) as (v & b & Hexec & Hb).
  exists l, sq, v, b. split; [done|].
  destruct b.
  - destruct (Hb eq_refl) as (df & -> & _).
    match type of Hexec with _ = Ok ?r =>
      destruct (generate_answer_returns
                  (update (update st {[ "query" := VStr sq ]}) r) (Some l) l eq_refl)
        as [a Ha] end.
    match type of Ha with generate_answer ?st2 _ = Ok ?u =>
      destruct (explain_answer_returns (update st2 u) (Some l) l eq_refl) as [x Hx] end.
    match type of Hx with explain_answer ?st3 _ = Ok ?u =>
      destruct (create_visualization_returns (update st3 u) (Some l) l eq_refl)
        as [c Hc] end.
    exists df, a, x, c. split; [done|].
    exact (graph_run_answer_path input l sq df a x c Hl Hwq Hexec Ha Hx Hc).
  - exact (graph_run_no_results_path input l sq v Hl Hwq Hexec).
Qed.

(** X13. A run of the compiled graph always ends: either it finishes, or
    it ends with the exception [write_query] raised before any node
    returned. It never runs a node twice, never more than five, and never
    stops on a missing edge or on the recursion limit. *)
Theorem graph_run_ends (state : gmap string PyVal) :
  (result (invoke create_sql_workflow state) = Finished
   ∨ ∃ e, write_query state None = Raise e
          ∧ invoke create_sql_workflow state
            = mkRun [] (channel_values create_sql_workflow state) (Raised e))
  ∧ length (nodes_run (invoke create_sql_workflow state)) ≤ 5
  ∧ NoDup (nodes_run (invoke create_sql_workflow state)).
Proof.
  destruct (graph_trace state) as [(e & Hwq & ->)|(l & sq & v & b & _ & Hrun)];
    cbv zeta in *.
  - split; [right; by exists e|]. split; [cbn; lia|constructor].
  - destruct b; [destruct Hrun as (df & a & x & c & _ & ->)|rewrite Hrun];
      (split; [by left|]); (split; [cbn; lia|]);
      apply (bool_decide_unpack _); by vm_compute.
Qed.

(** X14. A run of the compiled graph changes nothing but the six stage
    fields. Of the other keys, the three input channels ([tables],
    [schema], [question]) are in the final state with the value the input
    gave them; a key that [GraphState] does not declare is no channel, and
    the final state does not hold it whatever the input held. *)
Theorem graph_run_keeps_inputs (state : gmap string PyVal) (key : string) :
  key ∉ stage_fields →
  final_state (invoke create_sql_workflow state) !! key
  = if bool_decide (key ∈ GraphState) then state !! key else None.
Proof.
  intros Hkey. unfold stage_fields in Hkey.
  repeat (apply not_elem_of_cons in Hkey as [? Hkey]).
  rewrite <- (channel_values_lookup create_sql_workflow state key).
  destruct (graph_trace state) as [(e & Hwq & ->)|(l & sq & v & b & _ & Hrun)];
    cbv zeta in *; [done|].
  destruct b; [destruct Hrun as (df & a & x & c & _ & ->)|rewrite Hrun];
    cbn [final_state];
    (rewrite !update_other; [done|..]);
    rewrite ?lookup_insert_ne by done; by apply lookup_singleton_ne.
Qed.


End graph_more.

(** ** [database.py] *)

Section database_more.
Context `{Cloud}.

Lemma for_each_ok {A B} (body : A → res error B) xs :
  (∀ x, x ∈ xs → ∃ y, body x = Ok y) → ∃ ys, for_each body xs = Ok ys.
Proof.
  induction xs as [|x xs IH]; intros Hall; [by eexists|].
  destruct (Hall x) as [y Hy]; [apply list_elem_of_here|].
  destruct IH as [ys Hys]; [intros x' Hx'; by apply Hall, list_elem_of_further|].
  exists (y :: ys). cbn [for_each]. rewrite Hy. cbn. by rewrite Hys.
Qed.

Lemma for_each_raise {A B} (body : A → res error B) xs e :
  for_each body xs = Raise e → ∃ x, x ∈ xs ∧ body x = Raise e.
Proof.
  induction xs as [|x xs IH]; [done|]. cbn [for_each].
  destruct (body x) as [y|e'] eqn:Hx; cbn.
  - destruct (for_each body xs) as [ys|e'']; cbn; [done|].
    intros [= ->]. destruct IH as (x' & Hx' & Hbody); [done|].
    exists x'. split; [by apply list_elem_of_further|done].
  - intros [= ->]. exists x. split; [apply list_elem_of_here|done].
Qed.

Lemma table_schema_raise client pid table e :
  table_schema client pid table = Raise e ↔
  get_table client (pid ++ py "." ++ table) = Raise e.
Proof.
  unfold table_schema. destruct (get_table client _); cbn; naive_solver.
Qed.

Lemma table_schema_ok client pid table fields :
  get_table client (pid ++ py "." ++ table) = Ok fields →
  ∃ lines, table_schema client pid table = Ok lines.
Proof. intros Hf. unfold table_schema. rewrite Hf. cbn. by eexists. Qed.

(** X16. When listing the tables fails, the database object is still
    built: it has no table and an empty schema text, and no table schema
    is fetched. *)
Theorem listing_failure_gives_empty_database (client : Client) (pid : pystr)
    (e : error) :
  key_file_exists = true →
  connect = Ok (client, pid) →
  list_tables client (pid ++ py "." ++ DATABASE_NAME) = Raise e →
  bigquery_db
  = Ok {| database_name := DATABASE_NAME; _client := client; project_id := pid;
          tables := []; schemas := [] |}.
Proof.
  intros Hkey Hconnect Hlist. unfold bigquery_db, init, _create_client.
  rewrite Hkey, Hconnect. cbn. unfold _load_tables. by rewrite Hlist.
Qed.

(** X17. Building the database object fails in three ways only: the key
    file is missing, the client cannot be built, or the schema of a listed
    table cannot be fetched. If the key file is there, the client is built
    and every listed table's schema can be fetched, the object is built
    with the listed tables. *)
Theorem startup_failures (database : pystr) :
  (∀ e, init database = Raise e →
     (key_file_exists = false
      ∧ e = Failure (py "GCP key file not found in " ++ GCP_KEY_PATH))
     ∨ (key_file_exists = true ∧ connect = Raise e)
     ∨ ∃ client pid table,
         connect = Ok (client, pid)
         ∧ table ∈ _load_tables client pid database
         ∧ get_table client (pid ++ py "." ++ table) = Raise e)
  ∧ (∀ client pid,
       key_file_exists = true →
       connect = Ok (client, pid) →
       (∀ table, table ∈ _load_tables client pid database →
          ∃ fields, get_table client (pid ++ py "." ++ table) = Ok fields) →
       ∃ text, init database
               = Ok {| database_name := database; _client := client;
                       project_id := pid;
                       tables := _load_tables client pid database;
                       schemas := text |}).
Proof.
  split.
  - intros e. unfold init, _create_client.
    destruct key_file_exists; [|intros [= <-]; by left].
    destruct connect as [[client pid]|e']; cbn; [|intros [= <-]; right; by left].
    unfold _generate_schemas.
    destruct (for_each _ _) as [lines|e'] eqn:Hlines; cbn; [done|].
    intros [= ->]. right. right.
    apply for_each_raise in Hlines as (table & Htable & Hraise).
    exists client, pid, table. split; [done|]. split; [done|].
    by apply table_schema_raise.
  - intros client pid Hkey Hconnect Hall. unfold init, _create_client.
    rewrite Hkey, Hconnect. cbn. unfold _generate_schemas.
    destruct (for_each_ok (table_schema client pid) (_load_tables client pid database))
      as [lines ->].
    + intros table Htable. destruct (Hall table Htable) as [fields Hfields].
      by apply table_schema_ok with fields.
    + cbn. by eexists.
Qed.

(** X18. For a table that has descriptions, the schema lists a field only
    if the field has one: every line is the header, the closing empty
    line, or the line of a field of the table with its description, and
    there are two lines more than described fields. A table without
    descriptions gets one line per field. *)
Theorem described_table_lists_described_fields (client : Client)
    (pid table : pystr) (fields : list SchemaField) :
  get_table client (pid ++ py "." ++ table) = Ok fields →
  ∃ lines,
    table_schema client pid table = Ok lines
    ∧ match FIELDS_DESCR !! table with
      | Some descriptions =>
          length lines
          = 2 + length (filter (λ field, is_Some (descriptions !! name field)) fields)
          ∧ ∀ line, line ∈ lines →
              line = py "Schema for " ++ table ++ py ":" ∨ line = []
              ∨ ∃ field description,
                  field ∈ fields ∧ descriptions !! name field = Some description
                  ∧ line = described_line field description
      | None =>
          lines = (py "Schema for " ++ table ++ py ":")
                  :: (plain_line <$> fields) ++ [[]]
      end.
Proof.
  intros Hfields. unfold table_schema. rewrite Hfields. cbn -[py FIELDS_DESCR].
  eexists. split; [reflexivity|].
  destruct (FIELDS_DESCR !! table) as [descriptions|]; [|done].
  split.
  - cbn [length]. rewrite length_app. cbn [length]. f_equal.
    rewrite Nat.add_1_r. f_equal.
    clear Hfields. induction fields as [|field fields IH]; [done|].
    cbn [omap list_omap]. rewrite filter_cons.
    destruct (descriptions !! name field) as [d|] eqn:Hd; cbn.
    + rewrite decide_True by by eexists. cbn. by rewrite <- IH.
    + rewrite decide_False by (by intros [? ?]). done.
  - intros line [->|Hline]%elem_of_cons; [by left|].
    apply elem_of_app in Hline as [Hline|Hline].
    + right. right. apply list_elem_of_omap in Hline as (field & Hfield & Hline).
      destruct (descriptions !! name field) as [d|] eqn:Hd; [|done].
      injection Hline as <-. by exists field, d.
    + right. left. by apply list_elem_of_singleton in Hline.
Qed.

Lemma join_cons_nonempty sep line lines : line ≠ [] → join sep (line :: lines) ≠ [].
Proof.
  intros Hline. destruct lines; cbn [join]; [done|].
  destruct line; [done|]. done.
Qed.

(** X19. The schema text is empty exactly when there is no table: every
    table contributes at least its header line. *)
Theorem schema_text_empty_iff_no_table (client : Client) (pid : pystr)
    (tables : list pystr) (text : pystr) :
  _generate_schemas client pid tables = Ok text →
  (text = [] ↔ tables = []).
Proof.
  unfold _generate_schemas. destruct tables as [|table tables]; cbn [for_each].
  - cbn. intros [= <-]. done.
  - destruct (table_schema client pid table) as [lines|] eqn:Hlines;
      cbn -[py join for_each]; [|done].
    assert (∃ rest, lines = (py "Schema for " ++ table ++ py ":") :: rest)
      as [rest ->].
    { unfold table_schema in Hlines.
      destruct (get_table client _); cbn -[py FIELDS_DESCR] in Hlines; [|done].
      injection Hlines as <-. by eexists. }
    destruct (for_each (table_schema client pid) tables) as [more|];
      cbn -[py join]; [|done].
    intros Htext.
    assert (text = join [10%N]
                     ((py "Schema for " ++ table ++ py ":") :: (rest ++ concat more)))
      as ->.
    { injection Htext as Htext. symmetry. exact Htext. }
    split; [|done]. intros Hempty. exfalso. revert Hempty.
    apply join_cons_nonempty. done.
Qed.

End database_more.

(** ** [app.py] and the chart renderer across turns *)

Section app_more.
Context `{Runtime}.
Variable dict_str : gmap string PyVal → pystr.

Lemma messages_sent_app h1 h2 :
  messages_sent (h1 ++ h2) = messages_sent h1 ++ messages_sent h2.
Proof. apply omap_app. Qed.

(** What [main] makes of a turn. *)
Lemma main_outcome (content : pystr) (s : session) :
  ∃ new,
    history (main dict_str content s).2 = history s ++ new
    ∧ messages_sent new ≠ []
    ∧ match (run_chainlit_workflow content s).1 with
      | Ok _ => main dict_str content s = run_chainlit_workflow content s
      | Raise e =>
          if is_Exception e
          then (main dict_str content s).1 = Ok ()
               ∧ stages_run new = []
               ∧ messages_sent new
                 = [TextMessage (VStr (py "Desculpe, ocorreu um erro no fluxo: "
                                       ++ str_exception dict_str e))]
          else main dict_str content s = run_chainlit_workflow content s
               ∧ (∃ c df, (exec_code c df {| figs := []; plt := figures s |}).1
                          = Some e)
               ∧ ∃ df a,
                   messages_sent new
                   = [ResultsMessage (head 100 df) (bool_decide (100 < df_len df));
                      TextMessage (VStr a)]
      end.
Proof.
  unfold main, try_except.
  destruct (turn_trace content s)
    as [(e & Hwq & ->)|(sq & v & b & _ & _ & Hrun)]; cbv zeta in *.
  - pose proof (write_query_raises_Exception _ _ _ Hwq) as He.
    cbn [fst snd]. rewrite !He.
    cbn -[py]. eexists. split; [by rewrite <- app_assoc|].
    split; [done|]. done.
  - destruct b.
    + destruct Hrun as (df & a & x & c & -> & _ & _ & _ & _ & ->).
      pose proof (render_outcome_cases c df (figures s)) as Hcases.
      destruct (render_outcome c df (figures s)).1 as [m|e]; cbn [returned sent].
      * cbn -[py]. eexists. split; [done|]. split; [|done].
        unfold answer_path, answer_stages, messages_sent. cbn. done.
      * destruct Hcases as [He Hexec]. rewrite He. cbn [fst snd]. rewrite He.
        cbn -[py]. eexists. split; [done|]. split.
        { unfold answer_path, answer_stages, messages_sent. cbn. done. }
        split; [done|]. split; [by exists c, df|].
        exists df, a. unfold answer_path, answer_stages, messages_sent.
        cbn. done.
    + rewrite Hrun. cbn -[py]. eexists. split; [done|].
      split; [|done]. unfold no_results_path, messages_sent. cbn. done.
Qed.

(** X20. [main] leaves no message unanswered, and it returns unless the
    chart code exits. A turn that returns is left as it is. A turn that
    fails with an [Exception] gets exactly one message, the apology with the
    text of the exception, after no stage result was merged, and [main]
    returns. What is no [Exception] passes the handler: when the chart code
    raises it ([sys.exit()]), [main] raises it too, after the preview and
    the answer were sent and without an apology. *)
Theorem main_answers_unless_chart_exits (content : pystr) (s : session) :
  ∃ new,
    history (main dict_str content s).2 = history s ++ new
    ∧ messages_sent new ≠ []
    ∧ match (run_chainlit_workflow content s).1 with
      | Ok _ => main dict_str content s = run_chainlit_workflow content s
      | Raise e =>
          if is_Exception e
          then (main dict_str content s).1 = Ok ()
               ∧ stages_run new = []
               ∧ messages_sent new
                 = [TextMessage (VStr (py "Desculpe, ocorreu um erro no fluxo: "
                                       ++ str_exception dict_str e))]
          else main dict_str content s = run_chainlit_workflow content s
               ∧ (∃ c df, (exec_code c df {| figs := []; plt := figures s |}).1
                          = Some e)
               ∧ ∃ df a,
                   messages_sent new
                   = [ResultsMessage (head 100 df) (bool_decide (100 < df_len df));
                      TextMessage (VStr a)]
      end.
Proof. apply main_outcome. Qed.

(** X21. A conversation answers every message: after [n] messages the
    chat has received at least [n] more messages than before. *)
Theorem conversation_answers_every_message (contents : list pystr) (s : session) :
  length (messages_sent (history s)) + length contents
  ≤ length (messages_sent (history (conversation dict_str contents s))).
Proof.
  revert s. induction contents as [|content contents IH]; intros s.
  - cbn. lia.
  - cbn [conversation foldl length].
    fold (conversation dict_str contents (main dict_str content s).2).
    destruct (main_outcome content s) as (new & Hnew & Hsome & _).
    specialize (IH (main dict_str content s).2). rewrite Hnew in IH.
    rewrite messages_sent_app, length_app in IH.
    destruct (messages_sent new); [done|]. cbn [length] in IH. lia.
Qed.

Lemma no_open_figure_empty p : (∀ fig, ¬ is_open fig p) → Gcf p = ∅.
Proof.
  intros Hnone. apply map_empty. intros num.
  destruct (Gcf p !! num) as [fig|] eqn:Hfig; [|done].
  destruct (Hnone fig). by exists num.
Qed.

(** [main] leaves the orchestrator and the figures as the turn left
    them. *)
Lemma main_leaves_turn (content : pystr) (s : session) :
  self (main dict_str content s).2 = self (run_chainlit_workflow content s).2
  ∧ figures (main dict_str content s).2
    = figures (run_chainlit_workflow content s).2.
Proof.
  unfold main, try_except.
  destruct (run_chainlit_workflow content s) as [[[]|e] s']; [done|].
  by destruct (is_Exception e).
Qed.

(** X22. No figure outlives a turn whose chart code behaves: if no figure
    is open when a message arrives, and the chart code the turn produced
    for its result table, if it produced any, runs to completion and
    appends nothing that cannot be hashed, then no figure is open after the
    message. *)
Theorem no_figure_leak_without_chart_errors (content : pystr) (s : session) :
  Gcf (figures s) = ∅ →
  (∀ c df,
     self_state (self (main dict_str content s).2) !! "dataviz_code"
     = Some (VStr c) →
     self_state (self (main dict_str content s).2) !! "result"
     = Some (VDataFrame df) →
     strip c ≠ [] →
     ∃ g, exec_code c df {| figs := []; plt := figures s |} = (None, g)
          ∧ forallb hashable (figs g) = true) →
  Gcf (figures (main dict_str content s).2) = ∅.
Proof.
  intros Hempty. destruct (main_leaves_turn content s) as [-> ->].
  destruct (turn_trace content s)
    as [(e & _ & ->)|(sq & v & b & _ & _ & Hrun)]; cbv zeta in *; [done|].
  destruct b; [|by rewrite Hrun].
  destruct Hrun as (df & a & x & c & -> & _ & _ & _ & _ & ->).
  cbn [snd session_with figures self self_state]. intros Hcode.
  unfold render_outcome. case_bool_decide as Hsource; [done|].
  destruct (Hcode c df) as (g & Hexec & Hhashable); [| |done|].
  { unfold update. apply lookup_union_Some_l, lookup_singleton_eq. }
  { rewrite !update_other by done. unfold update.
    apply lookup_union_Some_l, lookup_insert_eq. }
  pose proof (create_plot_figures_from_empty_registry _ _ _ _ Hempty Hexec)
    as Hfigs.
  rewrite Hhashable in Hfigs. destruct Hfigs as (all_figs & Hall & _ & _ & Hclosed).
  destruct (create_plot_figures _ _ _) as [fs p]. cbn [fst snd] in *. subst fs.
  cbn [snd]. by apply no_open_figure_empty.
Qed.

End app_more.

(** ** The [step_*] methods *)

Section steps_more.
Context `{Runtime}.

(** X23. [step_execute_query] never raises; the value it returns is what
    the orchestrator's state then holds under [result], the flag it holds
    is a boolean, and every other key is as before. *)
Theorem step_execute_query_stores_result (s : session) :
  ∃ v (b : bool),
    (step_execute_query s).1 = Ok v
    ∧ self_state (self (step_execute_query s).2) !! "result" = Some v
    ∧ self_state (self (step_execute_query s).2) !! "has_results" = Some (VBool b)
    ∧ (b = true ↔ ∃ df, v = VDataFrame df)
    ∧ ∀ key, key ≠ "result" → key ≠ "has_results" →
        self_state (self (step_execute_query s).2) !! key
        = self_state (self s) !! key.
Proof.
  unfold step_execute_query. rewrite step_unfold.
  destruct (execute_query_kind (self_state (self s)) (Some (self_db (self s))))
    as (v & b & -> & Hkind).
  exists v, b. rewrite getitem_insert. cbn [propagate fst snd self self_state].
  split; [done|]. unfold update. split; [|split; [|split]].
  - by rewrite (lookup_union_Some_l _ _ _ v) by apply lookup_insert_eq.
  - rewrite (lookup_union_Some_l _ _ _ (VBool b)); [done|].
    rewrite lookup_insert_ne by done. apply lookup_singleton_eq.
  - destruct b.
    + destruct Hkind as (df & -> & _). split; [by eauto|done].
    + destruct Hkind as [text ->]. split; [done|]. by intros [df ?].
  - intros key Hr Hf. rewrite lookup_union_r; [done|].
    rewrite lookup_insert_ne by done. by apply lookup_singleton_ne.
Qed.

End steps_more.

(** ** Unwrapping a fenced answer *)

Lemma startswith_length p s : startswith p s = true → length p ≤ length s.
Proof.
  intros [t ->]%startswith_prefix. rewrite length_app. lia.
Qed.

(** [replace] copies a stretch in which no occurrence starts. *)
Lemma replace_skips o old' new pre rest :
  (∀ u t, pre = u ++ t → t ≠ [] → startswith (o :: old') (t ++ rest) = false) →
  replace (o :: old') new (pre ++ rest) = pre ++ replace (o :: old') new rest.
Proof.
  induction pre as [|c pre IH]; intros Hnone; [done|].
  cbn [app]. rewrite replace_no_match.
  - f_equal. apply IH. intros u t -> Ht. by apply (Hnone (c :: u) t).
  - by apply (Hnone [] (c :: pre)).
Qed.

Lemma startswith_refl p : startswith p p = true.
Proof. induction p as [|a p IH]; [done|]. cbn. by rewrite N.eqb_refl. Qed.

Lemma replace_whole o old' new :
  replace (o :: old') new (o :: old') = new.
Proof.
  rewrite replace_match by apply startswith_refl.
  rewrite drop_all, replace_nil. apply app_nil_r.
Qed.

Lemma replace_head o old' new rest :
  replace (o :: old') new ((o :: old') ++ rest)
  = new ++ replace (o :: old') new rest.
Proof.
  cbn [app]. rewrite replace_match by apply (startswith_app (o :: old') rest).
  by rewrite drop_app_length.
Qed.

(** The backticks a string starts with are not affected by what follows
    the first other code point. *)
Lemma ticks_app_other t c rest : c ≠ 96%N → ticks (t ++ c :: rest) = ticks t.
Proof.
  intros Hc. induction t as [|a t IH]; cbn [app ticks].
  - by rewrite (proj2 (N.eqb_neq 96 c)) by done.
  - by rewrite IH.
Qed.

Lemma no_fence_suffix u t : py_in (py "```") (u ++ t) = false → py_in (py "```") t = false.
Proof.
  intros Hin. apply not_true_is_false. intros Ht.
  apply py_in_occurs in Ht as (b & a & ->).
  assert (py_in (py "```") (u ++ b ++ py "```" ++ a) = true); [|congruence].
  apply py_in_occurs. exists (u ++ b), a. by rewrite <- app_assoc.
Qed.

(** Between the newlines of a fenced block whose body has no fence, no
    fence starts, whatever follows. *)
Lemma no_fence_starts_in_block body u t rest :
  py_in (py "```") body = false →
  10%N :: body ++ [10%N] = u ++ t → t ≠ [] →
  startswith (py "```") (t ++ rest) = false.
Proof.
  intros Hbody Hsplit Ht. apply not_true_is_false. intros Hstart.
  apply startswith_fence_ticks in Hstart.
  destruct u as [|c u].
  - cbn [app] in Hsplit. subst t. cbn in Hstart. lia.
  - injection Hsplit as <- Hsplit.
    destruct (decide (t = [10%N])) as [->|Hlast]; [cbn in Hstart; lia|].
    assert (∃ t', t = t' ++ [10%N] ∧ body = u ++ t') as (t' & -> & ->).
    { destruct t as [|last t' _] using rev_ind; [done|].
      rewrite app_assoc in Hsplit. apply app_inj_tail in Hsplit as [Hb Hc].
      subst. by exists t'. }
    rewrite <- app_assoc in Hstart. cbn [app] in Hstart.
    rewrite ticks_app_other in Hstart by done.
    apply startswith_fence_ticks in Hstart.
    apply no_fence_suffix in Hbody.
    by rewrite (startswith_py_in _ _ Hstart) in Hbody.
Qed.

Lemma list_suffix_cases {A} (l1 l2 u t : list A) :
  l1 ++ l2 = u ++ t →
  (∃ t1, t = t1 ++ l2 ∧ l1 = u ++ t1) ∨ (∃ u2, l2 = u2 ++ t ∧ u2 ≠ []).
Proof.
  revert u. induction l1 as [|a l1 IH]; intros u Heq.
  - destruct u as [|b u]; [left; by exists []|].
    right. exists (b :: u). by split.
  - destruct u as [|b u].
    + left. exists (a :: l1). by split.
    + injection Heq as -> Heq. destruct (IH u Heq) as [(t1 & -> & ->)|Hr].
      * left. by exists t1.
      * by right.
Qed.

Lemma replace_absent o old' new s :
  (∀ u t, s = u ++ t → t ≠ [] → startswith (o :: old') t = false) →
  replace (o :: old') new s = s.
Proof.
  intros Hnone. rewrite <- (app_nil_r s) at 1. rewrite replace_skips.
  - by rewrite replace_nil, app_nil_r.
  - intros u t Hsplit Ht. rewrite app_nil_r. by apply (Hnone u t).
Qed.

(** Removing the fences of a fenced block gives everything between them,
    if no fence starts in between. *)
Lemma unfence_generic tag block :
  tag ≠ [] →
  (∀ u t rest, block = u ++ t → t ≠ [] →
     startswith [96; 96; 96]%N (t ++ rest) = false) →
  replace [96; 96; 96]%N []
    (replace (96 :: 96 :: 96 :: tag)%N []
       ((96 :: 96 :: 96 :: tag)%N ++ block ++ [96; 96; 96]%N))
  = block.
Proof.
  intros Htag Hblock. rewrite replace_head, app_nil_l.
  rewrite (replace_absent 96%N (96 :: 96 :: tag)%N [] (block ++ [96; 96; 96]%N)).
  - rewrite (replace_skips 96%N [96; 96]%N [] block [96; 96; 96]%N).
    + by rewrite replace_whole, app_nil_r.
    + intros u t Hsplit Ht. by apply (Hblock u t).
  - intros u t Hsplit Ht. apply not_true_is_false. intros Hstart.
    apply list_suffix_cases in Hsplit as [(t1 & -> & Hsplit)|(u2 & Hfence & Hu2)].
    + destruct (decide (t1 = [])) as [->|Ht1].
      * apply startswith_length in Hstart. cbn in Hstart.
        destruct tag; [done|]. cbn in Hstart. lia.
      * apply startswith_prefix in Hstart as [rest Hrest].
        assert (startswith [96; 96; 96]%N (t1 ++ [96; 96; 96]%N) = true) as Hthree.
        { apply startswith_prefix. exists (tag ++ rest). by rewrite Hrest. }
        by rewrite (Hblock u t1 _ Hsplit Ht1) in Hthree.
    + apply startswith_length in Hstart. apply (f_equal length) in Hfence.
      rewrite length_app in Hfence. cbn in Hfence, Hstart.
      destruct tag; [done|]. destruct u2; [done|].
      cbn in Hfence, Hstart. lia.
Qed.

Lemma unfence_block tag body :
  tag ≠ [] →
  py_in (py "```") body = false →
  replace (py "```") []
    (replace (py "```" ++ tag) []
       ((py "```" ++ tag) ++ (10%N :: body ++ [10%N]) ++ py "```"))
  = 10%N :: body ++ [10%N].
Proof.
  intros Htag Hbody. apply (unfence_generic tag (10%N :: body ++ [10%N]) Htag).
  intros u t rest Hsplit Ht. by apply (no_fence_starts_in_block body u t).
Qed.

Lemma lstrip_newline s : lstrip (10%N :: s) = lstrip s.
Proof. reflexivity. Qed.

Lemma lstrip_app_newline s :
  lstrip (s ++ [10%N]) = [] ∧ lstrip s = []
  ∨ lstrip (s ++ [10%N]) = lstrip s ++ [10%N].
Proof.
  induction s as [|c s IH]; [by left|]. cbn [app lstrip].
  destruct (isspace c); [done|]. by right.
Qed.

Lemma rstrip_app_newline s : rstrip (s ++ [10%N]) = rstrip s.
Proof. unfold rstrip. by rewrite reverse_app. Qed.

Lemma strip_between_newlines body : strip (10%N :: body ++ [10%N]) = strip body.
Proof.
  unfold strip. rewrite lstrip_newline.
  destruct (lstrip_app_newline body) as [[-> ->] | ->]; [done|].
  apply rstrip_app_newline.
Qed.

(** A fenced block is stripped already, starts with its tagged fence, and
    what is left of it without the fences strips to the body. *)
Lemma fenced_block tag body :
  tag ≠ [] →
  py_in (py "```") body = false →
  let text := (py "```" ++ tag) ++ (10%N :: body ++ [10%N]) ++ py "```" in
  strip text = text
  ∧ startswith (py "```" ++ tag) text = true
  ∧ strip (replace (py "```") [] (replace (py "```" ++ tag) [] text)) = strip body.
Proof.
  intros Htag Hbody. cbv zeta. split; [|split].
  - apply strip_fixed; [reflexivity|].
    rewrite !reverse_app. reflexivity.
  - apply startswith_app.
  - rewrite unfence_block by done. apply strip_between_newlines.
Qed.

(** X24. A model answer that is a fenced block, the [```sql] line, a body
    without triple backticks and the closing [```] line, is unwrapped to
    its body: [write_query]'s fence stripping returns the body without the
    whitespace around it, and [create_visualization]'s does the same for a
    [```python] block. *)
Theorem fenced_block_is_unwrapped (body : pystr) :
  py_in (py "```") body = false →
  strip_sql_fence (py "```sql" ++ [10%N] ++ body ++ [10%N] ++ py "```") = strip body
  ∧ strip_python_fence (py "```python" ++ [10%N] ++ body ++ [10%N] ++ py "```")
    = strip body.
Proof.
  intros Hbody. rewrite (app_assoc body [10%N] (py "```")). split.
  - change (py "```sql" ++ [10%N] ++ (body ++ [10%N]) ++ py "```")
      with ((py "```" ++ py "sql") ++ (10%N :: body ++ [10%N]) ++ py "```").
    destruct (fenced_block (py "sql") body ltac:(done) Hbody) as (Hs & Hf & Hu).
    unfold strip_sql_fence. change (py "```sql") with (py "```" ++ py "sql").
    by rewrite Hs, Hf.
  - change (py "```python" ++ [10%N] ++ (body ++ [10%N]) ++ py "```")
      with ((py "```" ++ py "python") ++ (10%N :: body ++ [10%N]) ++ py "```").
    destruct (fenced_block (py "python") body ltac:(done) Hbody) as (Hs & Hf & Hu).
    unfold strip_python_fence. change (py "```python") with (py "```" ++ py "python").
    rewrite Hs, Hf, Hu. apply strip_idemp.
Qed.

Lemma fenced_block_is_unwrapped_witness :
  strip_sql_fence (py "```sql" ++ [10%N] ++ py "SELECT 1" ++ [10%N] ++ py "```")
  = strip (py "SELECT 1")
  ∧ strip_python_fence
      (py "```python" ++ [10%N] ++ py "SELECT 1" ++ [10%N] ++ py "```")
    = strip (py "SELECT 1").
Proof. apply (fenced_block_is_unwrapped (py "SELECT 1")). reflexivity. Defined.

Lemma model_stages_need_api_key_witness :
  let e := Builtin (ValueError (py "GOOGLE_API_KEY environment variable is required")) in
  write_query (H := Scenarios.keyless_runtime) Examples.test_state None = Raise e
  ∧ generate_answer (H := Scenarios.keyless_runtime) Examples.test_state None = Raise e
  ∧ explain_answer (H := Scenarios.keyless_runtime) Examples.test_state None = Raise e
  ∧ create_visualization (H := Scenarios.keyless_runtime) Examples.test_state None
    = Raise e
  ∧ invoke (create_sql_workflow (H := Scenarios.keyless_runtime)) Examples.test_state
    = mkRun [] Examples.test_state (Raised e).
Proof.
  apply (model_stages_need_api_key (H := Scenarios.keyless_runtime)
           Examples.test_state).
  left. reflexivity.
Defined.

Lemma write_query_returns_clean_query_witness :
  ∃ query, Examples.generated_query = {[ "query" := VStr query ]}
           ∧ strip query = query
           ∧ startswith (py "```sql") query = false.
Proof.
  apply (write_query_returns_clean_query (H := Examples.test_runtime)
           Examples.test_state None Examples.generated_query).
  reflexivity.
Defined.

Lemma write_query_raises_only_its_dict_witness :
  ∃ cause : error,
    ExceptionDict
      {[ "query" := VStr (py "-- Error generating query: quota exceeded") ]}
    = ExceptionDict
        {[ "query" := VStr (py "-- Error generating query: " ++ str_error cause) ]}
    ∧ (Examples.test_state !! "question" = None → cause = KeyError "question").
Proof.
  apply (write_query_raises_only_its_dict (H := Examples.test_runtime)
           Examples.test_state Examples.failing_llm).
  reflexivity.
Defined.

Lemma create_visualization_needs_table_witness :
  create_visualization (H := Examples.test_runtime) Scenarios.text_result_state
    (Some Examples.failing_llm)
  = Ok {[ "dataviz_code" :=
            VStr (py "# Error: '" ++ py "str"
                  ++ py "' object has no attribute 'empty'") ]}.
Proof.
  apply (create_visualization_needs_table (H := Examples.test_runtime)
           Scenarios.text_result_state Examples.failing_llm
           (VStr (py "Nenhum resultado encontrado.")) eq_refl).
  intros df. discriminate.
Defined.


Lemma turn_keeps_inputs_witness :
  self_state (self (run_chainlit_workflow (H := Examples.test_runtime)
                      (py "Test question")
                      (Examples.new_session Examples.fencing_llm
                         (Examples.db_returning Examples.count_table))).2)
    !! "question"
  = fresh_state (Examples.db_returning Examples.count_table) (py "Test question")
      !! "question".
Proof.
  apply (turn_keeps_inputs (H := Examples.test_runtime) (py "Test question")
           (Examples.new_session Examples.fencing_llm
              (Examples.db_returning Examples.count_table)) "question").
  apply (bool_decide_unpack _). vm_compute. exact I.
Defined.

Lemma graph_run_keeps_inputs_witness :
  final_state (invoke (create_sql_workflow (H := Examples.test_runtime))
                 Scenarios.annotated_state) !! "schema"
  = Some (VStr (py "Schema test"))
  ∧ final_state (invoke (create_sql_workflow (H := Examples.test_runtime))
                   Scenarios.annotated_state) !! "note"
    = None.
Proof.
  split.
  - apply (graph_run_keeps_inputs (H := Examples.test_runtime)
             Scenarios.annotated_state "schema").
    apply (bool_decide_unpack _). vm_compute. exact I.
  - apply (graph_run_keeps_inputs (H := Examples.test_runtime)
             Scenarios.annotated_state "note").
    apply (bool_decide_unpack _). vm_compute. exact I.
Defined.


Lemma listing_failure_gives_empty_database_witness :
  bigquery_db (H := Clouds.cloud true Clouds.unlisted_client)
  = Ok {| database_name := py "creditRisk"; _client := Clouds.unlisted_client;
          project_id := py "my-project"; tables := []; schemas := [] |}.
Proof.
  apply (listing_failure_gives_empty_database
           (H := Clouds.cloud true Clouds.unlisted_client) Clouds.unlisted_client
           (py "my-project") (Failure (py "403 Access Denied")));
    reflexivity.
Defined.

Lemma startup_failures_witness :
  (key_file_exists (Cloud := Clouds.cloud false Clouds.train_client) = false
   ∧ Failure (py "GCP key file not found in " ++ py "./gcpkey.json")
     = Failure (py "GCP key file not found in "
                ++ GCP_KEY_PATH (Cloud := Clouds.cloud false Clouds.train_client))
   ∨ key_file_exists (Cloud := Clouds.cloud false Clouds.train_client) = true
     ∧ connect (Cloud := Clouds.cloud false Clouds.train_client)
       = Raise (Failure (py "GCP key file not found in " ++ py "./gcpkey.json"))
   ∨ ∃ client pid table,
       connect (Cloud := Clouds.cloud false Clouds.train_client) = Ok (client, pid)
       ∧ table ∈ _load_tables client pid (py "creditRisk")
       ∧ get_table client (pid ++ py "." ++ table)
         = Raise (Failure (py "GCP key file not found in " ++ py "./gcpkey.json")))
  ∧ ∃ text,
      init (H := Clouds.cloud true Clouds.train_client) (py "creditRisk")
      = Ok {| database_name := py "creditRisk"; _client := Clouds.train_client;
              project_id := py "my-project";
              tables := _load_tables Clouds.train_client (py "my-project")
                          (py "creditRisk");
              schemas := text |}.
Proof.
  split.
  - apply (proj1 (startup_failures (H := Clouds.cloud false Clouds.train_client)
                    (py "creditRisk"))).
    reflexivity.
  - apply (proj2 (startup_failures (H := Clouds.cloud true Clouds.train_client)
                    (py "creditRisk")) Clouds.train_client (py "my-project")
             eq_refl eq_refl).
    intros table _. by eexists.
Defined.

Lemma described_table_lists_described_fields_witness :
  ∃ lines,
    table_schema (H := Clouds.cloud true Clouds.train_client) Clouds.train_client
      (py "my-project") (py "creditRisk.train") = Ok lines
    ∧ match FIELDS_DESCR (H := Clouds.cloud true Clouds.train_client)
              !! py "creditRisk.train" with
      | Some descriptions =>
          length lines
          = 2 + length (filter (λ field, is_Some (descriptions !! name field))
                          [Clouds.ref_date; Clouds.var9])
          ∧ ∀ line, line ∈ lines →
              line = py "Schema for " ++ py "creditRisk.train" ++ py ":" ∨ line = []
              ∨ ∃ field description,
                  field ∈ [Clouds.ref_date; Clouds.var9]
                  ∧ descriptions !! name field = Some description
                  ∧ line = described_line field description
      | None =>
          lines = (py "Schema for " ++ py "creditRisk.train" ++ py ":")
                  :: (plain_line <$> [Clouds.ref_date; Clouds.var9]) ++ [[]]
      end.
Proof.
  apply (described_table_lists_described_fields
           (H := Clouds.cloud true Clouds.train_client) Clouds.train_client
           (py "my-project") (py "creditRisk.train")
           [Clouds.ref_date; Clouds.var9] eq_refl).
Defined.

Lemma schema_text_empty_iff_no_table_witness :
  (([] : pystr) = [] ↔ ([] : list pystr) = [])
  ∧ ∀ text,
      _generate_schemas (H := Clouds.cloud true Clouds.train_client)
        Clouds.train_client (py "my-project") [py "creditRisk.train"] = Ok text →
      (text = [] ↔ [py "creditRisk.train"] = []).
Proof.
  split.
  - apply (schema_text_empty_iff_no_table
             (H := Clouds.cloud true Clouds.train_client) Clouds.train_client
             (py "my-project") [] [] eq_refl).
  - intros text.
    apply (schema_text_empty_iff_no_table
             (H := Clouds.cloud true Clouds.train_client) Clouds.train_client
             (py "my-project") [py "creditRisk.train"] text).
Defined.

Lemma no_figure_leak_without_chart_errors_witness :
  Gcf (figures (main (H := Examples.test_runtime) Clouds.no_dict_text
                  (py "Qual a idade?")
                  (Examples.new_session Examples.fencing_llm
                     (Examples.db_returning Examples.count_table))).2) = ∅.
Proof.
  apply (no_figure_leak_without_chart_errors (H := Examples.test_runtime)
           Clouds.no_dict_text (py "Qual a idade?")
           (Examples.new_session Examples.fencing_llm
              (Examples.db_returning Examples.count_table))).
  - reflexivity.
  - intros c df _ _ _. eexists. split; reflexivity.
Defined.

(** X25. When no figure is open as the renderer starts and the chart code
    completes, what the renderer does depends on what the code appended to
    [figs]. If every item can be hashed, it returns each item the code
    appended and each figure the code left open exactly once, and leaves no
    figure open. If some item cannot be hashed ([figs.append([fig])]), it
    returns [[]] and closes nothing: the figures the code opened stay
    open. *)
Theorem renderer_returns_and_closes_all (code : Code) (df : DataFrame)
    (p : pyplot) (g : exec_globals) :
  Gcf p = ∅ →
  code df {| figs := []; plt := p |} = (None, g) →
  if forallb hashable (figs g)
  then ∃ all_figs,
         (create_plot_figures code df p).1 = Ok all_figs
         ∧ NoDup all_figs
         ∧ (∀ i, i ∈ all_figs
                 ↔ i ∈ figs g ∨ ∃ fig, i = Fig fig ∧ is_open fig (plt g))
         ∧ (∀ fig, ¬ is_open fig (create_plot_figures code df p).2)
  else create_plot_figures code df p = (Ok [], plt g).
Proof. apply create_plot_figures_from_empty_registry. Qed.

Lemma renderer_returns_and_closes_all_witness :
  (∃ all_figs,
     (create_plot_figures (program [NewFigure true; NewFigure false])
        Examples.count_table fresh_pyplot).1 = Ok all_figs
     ∧ NoDup all_figs
     ∧ (∀ i, i ∈ all_figs
             ↔ i ∈ [Fig 0]
               ∨ ∃ fig, i = Fig fig
                        ∧ is_open fig
                            (exec_stmts [NewFigure true; NewFigure false]
                               {| figs := []; plt := fresh_pyplot |}).2.(plt))
     ∧ (∀ fig, ¬ is_open fig
                 (create_plot_figures (program [NewFigure true; NewFigure false])
                    Examples.count_table fresh_pyplot).2))
  ∧ create_plot_figures Examples.chart_appends_list Examples.count_table
      fresh_pyplot
    = (Ok [], {| Gcf := {[ 1 := 0 ]}; created := 1 |}).
Proof.
  split.
  - exact (renderer_returns_and_closes_all
             (program [NewFigure true; NewFigure false]) Examples.count_table
             fresh_pyplot
             (exec_stmts [NewFigure true; NewFigure false]
                {| figs := []; plt := fresh_pyplot |}).2
             eq_refl eq_refl).
  - exact (renderer_returns_and_closes_all Examples.chart_appends_list
             Examples.count_table fresh_pyplot
             (exec_stmts [NewFigure false; Append (Unhashable 0)]
                {| figs := []; plt := fresh_pyplot |}).2
             eq_refl eq_refl).
Defined.

(** Three turns on the one-row table, told apart by the chart code the
    model wrote. Code that exits: the turn and [main] raise [SystemExit]
    after two messages, and the figure stays open. Code that appends a list:
    the renderer reports no figure, and the figure stays open. Code that
    appends an object that is no figure: the chat gets the error of
    [cl.Pyplot]. *)
Example turn_with_exiting_chart :
  let done :=
    main (H := Examples.charting_runtime Examples.chart_exits) Clouds.no_dict_text
      (py "Quantos registros?")
      (Examples.new_session Examples.fencing_llm
         (Examples.db_returning Examples.count_table)) in
  done.1 = Raise SystemExit
  ∧ messages_sent (history done.2)
    = [ResultsMessage Examples.count_table false;
       TextMessage (VStr (py "Dez registros."))]
  ∧ get_fignums (figures done.2) = [1].
Proof. cbv zeta. split; [|split]; by vm_compute. Qed.

Example turn_with_list_in_figs :
  let done :=
    main (H := Examples.charting_runtime Examples.chart_appends_list)
      Clouds.no_dict_text (py "Quantos registros?")
      (Examples.new_session Examples.fencing_llm
         (Examples.db_returning Examples.count_table)) in
  done.1 = Ok ()
  ∧ messages_sent (history done.2)
    = [ResultsMessage Examples.count_table false;
       TextMessage (VStr (py "Dez registros.")); NoFigureMessage]
  ∧ get_fignums (figures done.2) = [1].
Proof. cbv zeta. split; [|split]; by vm_compute. Qed.

Example turn_with_non_figure_in_figs :
  let done :=
    main (H := Examples.charting_runtime (program [Append (Hashable 0)]))
      Clouds.no_dict_text (py "Quantos registros?")
      (Examples.new_session Examples.fencing_llm
         (Examples.db_returning Examples.count_table)) in
  done.1 = Ok ()
  ∧ messages_sent (history done.2)
    = [ResultsMessage Examples.count_table false;
       TextMessage (VStr (py "Dez registros."));
       VisualizationErrorMessage
         (Builtin (TypeError (py "figure must be a matplotlib.figure.Figure")))].
Proof. cbv zeta. split; by vm_compute. Qed.

Lemma large_text_result_not_sent_witness :
  generate_answer (H := Examples.test_runtime) Clouds.long_text_state
    (Some Examples.fencing_llm)
  = Ok {[ "answer" :=
            VStr (py "Error generating answer: "
                  ++ py "'str' object has no attribute 'head'") ]}.
Proof.
  apply (large_text_result_not_sent (H := Examples.test_runtime)
           Clouds.long_text_state (replicate (N.to_nat 10001) 120%N)
           (Some Examples.fencing_llm) Examples.fencing_llm eq_refl).
  - vm_compute. reflexivity.
  - reflexivity.
Defined.

(** ** What reaches the model in a turn *)

Section prompt_variables.
Context `{Runtime}.

Lemma update_lookup (state u : gmap string PyVal) key v :
  u !! key = Some v → update state u !! key = Some v.
Proof. intros Hu. unfold update. by apply lookup_union_Some_l. Qed.

(** X27. The first model call of a turn carries the question as asked, the
    table names of the warehouse one per line and its schema text; the
    query [write_query] returns is the model's answer with its fence
    stripped. *)
Theorem first_prompt_of_a_turn (db : Database) (question : pystr) (l : LLM) :
  write_query (fresh_state db question) (Some l)
  = match l write_query_system_prompt
            {[ "question" := VStr question;
               "tables" := VStr (join [10%N] (get_tables db));
               "schema" := VStr (get_schemas db) ]} with
    | Ok text => Ok {[ "query" := VStr (strip_sql_fence text) ]}
    | Raise e =>
        Raise (ExceptionDict
          {[ "query" := VStr (py "-- Error generating query: " ++ str_error e) ]})
    end.
Proof.
  unfold write_query. cbn -[py str_error strip_sql_fence getitem fresh_state].
  rewrite (getitem_Some (fresh_state db question) "question" (VStr question) eq_refl).
  rewrite (getitem_Some (fresh_state db question) "tables" (VList (get_tables db))
             eq_refl).
  rewrite (getitem_Some (fresh_state db question) "schema" (VStr (get_schemas db))
             eq_refl).
  cbn -[py str_error strip_sql_fence fresh_state].
  by destruct (l write_query_system_prompt _).
Qed.

(** X28. On the answer path the model is called with what the earlier
    stages wrote, not with the placeholders of the fresh state:
    [generate_answer] hands it the question, the query [write_query]
    returned and the table [execute_query] returned (or its truncation
    note), and [explain_answer] the same and the answer [generate_answer]
    returned. Each returns the model's text stripped, or its own error
    text. *)
Theorem prompts_of_the_answer_path (db : Database) (question sq a : pystr)
    (df : DataFrame) (l : LLM) :
  let st2 :=
    update (update (fresh_state db question) {[ "query" := VStr sq ]})
      {[ "result" := VDataFrame df; "has_results" := VBool true ]} in
  let shown :=
    if (10000 <? N.of_nat (len (df_str df)))%N then VStr (truncated_note df)
    else VDataFrame df in
  generate_answer st2 (Some l)
  = match l answer_system_prompt
            {[ "question" := VStr question; "query" := VStr sq;
               "result" := shown ]} with
    | Ok answer => Ok {[ "answer" := VStr (strip answer) ]}
    | Raise e =>
        Ok {[ "answer" := VStr (py "Error generating answer: " ++ str_error e) ]}
    end
  ∧ explain_answer (update st2 {[ "answer" := VStr a ]}) (Some l)
    = match l explain_system_prompt
              {[ "question" := VStr question; "query" := VStr sq;
                 "result" := shown; "answer" := VStr a ]} with
      | Ok explanation => Ok {[ "explanation" := VStr (strip explanation) ]}
      | Raise e =>
          Ok {[ "explanation" :=
                  VStr (py "Error generating explanation: " ++ str_error e) ]}
      end.
Proof.
  cbv zeta.
  set (st2 := update (update (fresh_state db question) {[ "query" := VStr sq ]})
                {[ "result" := VDataFrame df; "has_results" := VBool true ]}).
  assert (st2 !! "result" = Some (VDataFrame df)) as Hres
    by (apply update_lookup, lookup_insert_eq).
  assert (st2 !! "query" = Some (VStr sq)) as Hquery.
  { unfold st2. rewrite update_other by done.
    apply update_lookup, lookup_singleton_eq. }
  assert (st2 !! "question" = Some (VStr question)) as Hquestion.
  { unfold st2. by rewrite !update_other by done. }
  assert (∀ st, st !! "result" = Some (VDataFrame df) →
            result_for_llm st
            = Ok (if (10000 <? N.of_nat (len (df_str df)))%N
                  then VStr (truncated_note df) else VDataFrame df)) as Hshown.
  { intros st Hst. unfold result_for_llm. rewrite (getitem_Some _ _ _ Hst).
    cbn -[py N.ltb]. by destruct (10000 <? _)%N. }
  split.
  - unfold generate_answer, answer_variables. rewrite (Hshown _ Hres).
    rewrite (getitem_Some _ _ _ Hquestion), (getitem_Some _ _ _ Hquery).
    cbn -[py str_error strip N.ltb].
    by destruct (l answer_system_prompt _).
  - unfold explain_answer, explanation_variables.
    rewrite (Hshown (update st2 {[ "answer" := VStr a ]}))
      by (by rewrite update_other).
    rewrite (getitem_Some _ "question" (VStr question)) by (by rewrite update_other).
    rewrite (getitem_Some _ "query" (VStr sq)) by (by rewrite update_other).
    rewrite (getitem_Some _ "answer" (VStr a))
      by apply update_lookup, lookup_singleton_eq.
    cbn -[py str_error strip N.ltb].
    by destruct (l explain_system_prompt _).
Qed.

(** X29. The chart prompt of the answer path never holds the whole table:
    it holds the question, the query, the quoted column names and the
    rendering of the first five rows. *)
Theorem chart_prompt_holds_a_sample (db : Database) (question sq a x : pystr)
    (df : DataFrame) (l : LLM) :
  empty df = false →
  let st4 :=
    update (update (update (update (fresh_state db question)
                              {[ "query" := VStr sq ]})
                      {[ "result" := VDataFrame df; "has_results" := VBool true ]})
              {[ "answer" := VStr a ]})
      {[ "explanation" := VStr x ]} in
  create_visualization st4 (Some l)
  = match l dataviz_system_prompt
            {[ "question" := VStr question; "query" := VStr sq;
               "result" :=
                 VStr (py "Amostra dos dados (5 primeiras linhas):" ++ [10%N]
                       ++ to_string (head 5 df));
               "columns" :=
                 VList ((λ col, py "'" ++ col ++ py "', ") <$> column_names df) ]} with
    | Ok text => Ok {[ "dataviz_code" := VStr (strip_python_fence text) ]}
    | Raise e => Ok {[ "dataviz_code" := VStr (py "# Error: " ++ str_error e) ]}
    end.
Proof.
  intros Hne. cbv zeta. unfold create_visualization.
  cbn -[py str_error strip_python_fence getitem fresh_state update].
  rewrite (getitem_Some _ "result" (VDataFrame df)).
  2:{ rewrite !update_other by done. apply update_lookup, lookup_insert_eq. }
  cbn -[py str_error strip_python_fence getitem fresh_state update].
  rewrite Hne. cbn -[py str_error strip_python_fence getitem fresh_state update].
  rewrite (getitem_Some _ "question" (VStr question)) by (by rewrite !update_other).
  rewrite (getitem_Some _ "query" (VStr sq)).
  2:{ rewrite !update_other by done. apply update_lookup, lookup_singleton_eq. }
  cbn -[py str_error strip_python_fence fresh_state update].
  by destruct (l dataviz_system_prompt _).
Qed.

End prompt_variables.

Lemma chart_prompt_holds_a_sample_witness :
  create_visualization (H := Examples.test_runtime)
    (update (update (update (update
       (fresh_state (Examples.db_returning Examples.count_table) (py "how many?"))
       {[ "query" := VStr (py "SELECT 1") ]})
       {[ "result" := VDataFrame Examples.count_table;
          "has_results" := VBool true ]})
       {[ "answer" := VStr (py "one") ]})
       {[ "explanation" := VStr (py "counted") ]})
    (Some Examples.failing_llm)
  = Ok {[ "dataviz_code" := VStr (py "# Error: " ++ py "quota exceeded") ]}.
Proof.
  rewrite (chart_prompt_holds_a_sample (H := Examples.test_runtime)
             (Examples.db_returning Examples.count_table) (py "how many?")
             (py "SELECT 1") (py "one") (py "counted") Examples.count_table
             Examples.failing_llm eq_refl).
  reflexivity.
Defined.
